(** * nvue: the configuration session of plugins/modules/nvue.py

    A shallow embedding of the Ansible module [nvue] and the properties of
    its session protocol: detach, diff, run the commands, diff, apply, save.

    Strings are Rocq strings whose characters stand for the code points
    below 256.  The device behind [module.run_command] is an arbitrary
    state machine; every call the module makes is recorded, in order,
    together with the place in [run_nvue] that made it and with what the
    device answered. *)

From Stdlib Require Import String Ascii List ZArith Bool Lia.
Import ListNotations.
Open Scope string_scope.

(** ** Python string methods used by the module *)

Module PyStr.

(** [str.isspace] on one character, for the code points below 256:
    TAB..CR, FS..US, space, NEL and NBSP. *)
Definition isspace (c : ascii) : bool :=
  let n := N_of_ascii c in
  ((9 <=? n) && (n <=? 13) || (28 <=? n) && (n <=? 32)
   || (n =? 133) || (n =? 160))%N.

Fixpoint lstrip (s : string) : string :=
  match s with
  | EmptyString => EmptyString
  | String c s' => if isspace c then lstrip s' else s
  end.

Fixpoint rstrip (s : string) : string :=
  match s with
  | EmptyString => EmptyString
  | String c s' =>
      match rstrip s' with
      | EmptyString => if isspace c then EmptyString else String c EmptyString
      | r => String c r
      end
  end.

(** [s.strip()] *)
Definition strip (s : string) : string := rstrip (lstrip s).

(** The line boundaries of [str.splitlines] below 256:
    LF, VT, FF, CR, FS, GS, RS and NEL; CR LF counts once. *)
Definition islinebreak (c : ascii) : bool :=
  let n := N_of_ascii c in
  ((10 <=? n) && (n <=? 13) || (28 <=? n) && (n <=? 30) || (n =? 133))%N.

Definition CR : ascii := ascii_of_N 13.
Definition LF : ascii := ascii_of_N 10.

(** [cur] is the line read so far, last character first. *)
Fixpoint splitlines_from (cur : list ascii) (s : string) : list string :=
  match s with
  | EmptyString =>
      match cur with
      | [] => []
      | _ => [string_of_list_ascii (rev cur)]
      end
  | String c s' =>
      if islinebreak c then
        string_of_list_ascii (rev cur) ::
          match s' with
          | String c' s'' =>
              if Ascii.eqb c CR && Ascii.eqb c' LF
              then splitlines_from [] s''
              else splitlines_from [] s'
          | EmptyString => splitlines_from [] s'
          end
      else splitlines_from (c :: cur) s'
  end.

(** [s.splitlines()] *)
Definition splitlines (s : string) : list string := splitlines_from [] s.

(** Truth value of a string: [bool(s)]. *)
Definition truthy (s : string) : bool :=
  match s with
  | EmptyString => false
  | String _ _ => true
  end.

End PyStr.

Import PyStr.

(** ** Data of a session *)

(** The places in [run_nvue] that call [command_helper]. *)
Inductive site : Type :=
| Detach | DiffBefore | Config | DiffAfter | Apply | Save.

Definition site_eqb (a b : site) : bool :=
  match a, b with
  | Detach, Detach | DiffBefore, DiffBefore | Config, Config
  | DiffAfter, DiffAfter | Apply, Apply | Save, Save => true
  | _, _ => false
  end.

(** One call of [module.run_command]: who called, the command line, and the
    exit status, stdout and stderr that came back. *)
Record call : Type := Call {
  call_site : site;
  call_line : string;
  call_rc : Z;
  call_stdout : string;
  call_stderr : string
}.

(** The keyword arguments of [module.fail_json]. *)
Inductive failure : Type :=
| ExecutionFailure (msg : string) (rc : Z) (stdout stderr : string)
| ArgumentError (msg : string).

Inductive exception : Type :=
| AttributeError (msg : string).

(** How a computation of the module ends: it returns, it leaves through
    [fail_json], or an exception escapes. *)
Inductive outcome (A : Type) : Type :=
| Returned (a : A)
| Failed (f : failure)
| Raised (e : exception).
Arguments Returned {A} a.
Arguments Failed {A} f.
Arguments Raised {A} e.

(** [module.params] once the defaults are filled in; the elements of
    [commands] are strings. *)
Record params : Type := Params {
  apply : bool;
  atomic : bool;
  commands : list string;
  confirm : bool;
  confirm_no : bool;
  confirm_timeout : string;
  confirm_yes : bool;
  detach : bool;
  save : bool;
  template : option string
}.

(** The options as the caller wrote them; [None] is an option left out. *)
Record args : Type := Args {
  arg_apply : option bool;
  arg_atomic : option bool;
  arg_commands : option (list string);
  arg_confirm : option bool;
  arg_confirm_no : option bool;
  arg_confirm_timeout : option string;
  arg_confirm_yes : option bool;
  arg_detach : option bool;
  arg_save : option bool;
  arg_template : option string
}.

Record diff : Type := Diff { before : string; after : string }.

(** What [main] hands to [module.exit_json]. *)
Record result : Type := Result {
  changed : bool;
  res_diff : diff;
  output : list string
}.

(** The values [run_nvue] computes from the flags before it touches the
    device. *)
Record flags : Type := Flags {
  do_apply : bool;
  do_detach : bool;
  apply_options : string
}.

Definition is_some {A : Type} (o : option A) : bool :=
  match o with Some _ => true | None => false end.

Definition default {A : Type} (d : A) (o : option A) : A :=
  match o with Some a => a | None => d end.

(** [sub] occurs in [s]. *)
Definition substring_of (sub s : string) : Prop :=
  exists pre post, s = pre ++ sub ++ post.

(** ** Devices to run the module on *)

Module Lab.

Definition nl : string := String LF EmptyString.

(** A device that accepts every command and prints nothing. *)
Definition quiet (line : string) (d : unit) : Z * string * string * unit :=
  (0%Z, "", "", tt).

(** A switch that counts the pending lines of its buffer: [set] lines add
    to it, detach and apply empty it, anything else is an error. *)
Definition switch (line : string) (pending : nat)
  : Z * string * string * nat :=
  if line =? "/usr/bin/nv config detach" then (0%Z, "", "", 0)
  else if line =? "/usr/bin/nv config diff" then
    (0%Z, match pending with 0 => "" | S _ => "+ pending" ++ nl end, "",
     pending)
  else if prefix "/usr/bin/nv config apply" line then
    (0%Z, "applied" ++ nl, "", 0)
  else if line =? "/usr/bin/nv config save" then (0%Z, "", "", pending)
  else if prefix "/usr/bin/nv set " line then (0%Z, "", "", S pending)
  else (1%Z, "", "Error: invalid command" ++ nl, pending).

(** A request given by its flags and commands, with the default timeout
    and no template. *)
Definition request
    (apply atomic confirm confirm_yes detach save : bool)
    (commands : list string) : params :=
  Params apply atomic commands confirm false "10m" confirm_yes detach save
    None.

(** The arguments of a call of the module without any option. *)
Definition no_args : args :=
  Args None None None None None None None None None None.

(** A request that gives a template and nothing else. *)
Definition templated (t : string) : params :=
  Params false false [] false false "10m" false false false (Some t).

(** The arguments of a call that gives commands and nothing else. *)
Definition only_commands (l : list string) : args :=
  Args None None (Some l) None None None None None None None.

End Lab.

(** ** The module *)

Section Session.

(** The device: [module.run_command] as a transition of its state. *)
Variable Dev : Type.
Variable run_command : string -> Dev -> Z * string * string * Dev.

(** A computation runs from a device state to an outcome, the new device
    state and the calls it made. *)
Definition M (A : Type) : Type := Dev -> outcome A * Dev * list call.

Definition ret {A : Type} (a : A) : M A := fun d => (Returned a, d, []).

Definition bind {A B : Type} (m : M A) (f : A -> M B) : M B :=
  fun d =>
    match m d with
    | (Returned a, d1, t1) =>
        let '(o, d2, t2) := f a d1 in (o, d2, (t1 ++ t2)%list)
    | (Failed e, d1, t1) => (Failed e, d1, t1)
    | (Raised e, d1, t1) => (Raised e, d1, t1)
    end.

Definition fail_json {A : Type} (f : failure) : M A :=
  fun d => (Failed f, d, []).

Definition raise {A : Type} (e : exception) : M A :=
  fun d => (Raised e, d, []).

(** [module.run_command(line)], called from [s]. *)
Definition exec (s : site) (line : string) : M (Z * string * string) :=
  fun d =>
    let '(rc, out, err, d') := run_command line d in
    (Returned (rc, out, err), d', [Call s line rc out err]).

Notation "x <- m ;; k" := (bind m (fun x => k))
  (at level 61, m at next level, right associativity).
Notation "' p <- m ;; k" := (bind m (fun x => let 'p := x in k))
  (at level 61, p pattern, m at next level, right associativity).

(** [s] names the caller; it goes into the record of the call and nowhere
    else. *)
Definition command_helper (s : site) (command : string) : M string :=
  '(exitstatus, stdout, stderr) <- exec s ("/usr/bin/nv " ++ command) ;;
  if negb (exitstatus =? 0)%Z then
    fail_json (ExecutionFailure ("Failed on line '" ++ command ++ "'")
                 exitstatus stdout stderr)
  else ret (strip stdout).

(** [list(commands_helper(module, commands))]: the generator run to its
    end. *)
Fixpoint commands_helper (commands : list string) : M (list string) :=
  match commands with
  | [] => ret []
  | line :: rest =>
      let line := strip line in
      if line =? "" then commands_helper rest
      else
        out <- command_helper Config line ;;
        outs <- commands_helper rest ;;
        ret (out :: outs)
  end.

Definition check_pending (s : site) : M string :=
  command_helper s "config diff".

(** Lines 144 to 146: the command list, from [commands] or else from the
    lines of [template]. *)
Definition resolve_commands (p : params) : M (list string) :=
  match commands p with
  | _ :: _ => ret (commands p)
  | [] =>
      match template p with
      | Some t => ret (splitlines t)
      | None =>
          raise (AttributeError
                   "'NoneType' object has no attribute 'splitlines'")
      end
  end.

(** Lines 147 to 167: the flags in force. *)
Definition resolve_flags (p : params) : flags :=
  let do_apply := apply p in
  let apply_options := "" in
  let do_detach := detach p in
  let '(do_apply, apply_options) :=
    if confirm p
    then (true, apply_options ++ " --confirm " ++ confirm_timeout p)
    else (do_apply, apply_options) in
  let apply_options :=
    if confirm_yes p then apply_options ++ " --confirm-yes"
    else apply_options in
  let apply_options :=
    if confirm_no p then apply_options ++ " --confirm-no"
    else apply_options in
  let '(do_apply, do_detach) :=
    if atomic p then (true, true) else (do_apply, do_detach) in
  Flags do_apply do_detach apply_options.

Definition run_nvue (p : params) (check_mode : bool) : M result :=
  commands <- resolve_commands p ;;
  let f := resolve_flags p in
  let do_save := save p in
  let changed := false in
  _ <- (if do_detach f || check_mode
        then command_helper Detach "config detach"
        else ret "") ;;
  before <- check_pending DiffBefore ;;
  output <- commands_helper commands ;;
  after <- check_pending DiffAfter ;;
  let changed := negb (before =? after) in
  '(changed, output) <-
    (if truthy after && do_apply f && negb check_mode then
       ret_ <- command_helper Apply
                 ("config apply --assume-yes " ++ apply_options f) ;;
       ret (true, if truthy ret_ then (output ++ [ret_])%list else output)
     else ret (changed, output)) ;;
  '(changed, output) <-
    (if do_save && negb check_mode then
       ret_ <- command_helper Save "config save" ;;
       ret (true, if truthy ret_ then (output ++ [ret_])%list else output)
     else ret (changed, output)) ;;
  ret (Result changed (Diff before after) output).

(** The pairs given to [AnsibleModule] as [mutually_exclusive]. *)
Definition mutually_exclusive : list (string * string) :=
  [ ("commands", "template");
    ("apply", "atomic");
    ("confirm", "atomic");
    ("confirm_no", "atomic");
    ("confirm_yes", "atomic");
    ("confirm_no", "confirm_yes");
    ("confirm", "confirm_yes");
    ("confirm", "confirm_no");
    ("detach", "atomic") ].

(** Modelled from the spec: the argument validation of [AnsibleModule],
    which is not part of the module's source.  An option is populated when
    the caller wrote it. *)
Definition populated (a : args) (name : string) : bool :=
  if name =? "apply" then is_some (arg_apply a)
  else if name =? "atomic" then is_some (arg_atomic a)
  else if name =? "commands" then is_some (arg_commands a)
  else if name =? "confirm" then is_some (arg_confirm a)
  else if name =? "confirm_no" then is_some (arg_confirm_no a)
  else if name =? "confirm_timeout" then is_some (arg_confirm_timeout a)
  else if name =? "confirm_yes" then is_some (arg_confirm_yes a)
  else if name =? "detach" then is_some (arg_detach a)
  else if name =? "save" then is_some (arg_save a)
  else if name =? "template" then is_some (arg_template a)
  else false.

(** Modelled from the spec: the argument validation of [AnsibleModule],
    which is not part of the module's source.  The pairs of which both
    options are populated; a request with such a pair is rejected. *)
Definition check_mutually_exclusive
    (terms : list (string * string)) (a : args) : list (string * string) :=
  filter (fun t => populated a (fst t) && populated a (snd t)) terms.

(** The [argument_spec] of [main]: types and defaults. *)
Definition argument_spec (a : args) : params :=
  {| apply := default false (arg_apply a);
     atomic := default false (arg_atomic a);
     commands := default [] (arg_commands a);
     confirm := default false (arg_confirm a);
     confirm_no := default false (arg_confirm_no a);
     confirm_timeout := default "10m" (arg_confirm_timeout a);
     confirm_yes := default false (arg_confirm_yes a);
     detach := default false (arg_detach a);
     save := default false (arg_save a);
     template := arg_template a |}.

Definition main (a : args) (check_mode : bool) : M result :=
  match check_mutually_exclusive mutually_exclusive a with
  | [] => run_nvue (argument_spec a) check_mode
  | bad =>
      fail_json
        (ArgumentError
           ("parameters are mutually exclusive: " ++
            String.concat ", "
              (map (fun t => fst t ++ "|" ++ snd t) bad)))
  end.


(** *** Vocabulary of the properties *)

Definition calls_of {A : Type} (r : outcome A * Dev * list call) : list call :=
  snd r.

Definition outcome_of {A : Type} (r : outcome A * Dev * list call)
  : outcome A :=
  fst (fst r).

(** Every call a computation makes satisfies [P]. *)
Definition always {A : Type} (P : call -> Prop) (m : M A) : Prop :=
  forall d, Forall P (calls_of (m d)).

Definition succeeded (c : call) : Prop := call_rc c = 0%Z.

(** [f] is the report [command_helper] gives of the call [c]. *)
Definition reports (f : failure) (c : call) : Prop :=
  exists line,
    call_line c = "/usr/bin/nv " ++ line /\
    f = ExecutionFailure ("Failed on line '" ++ line ++ "'")
          (call_rc c) (call_stdout c) (call_stderr c).

(** A run stops at its first failing call and reports it. *)
Definition fail_fast {A : Type} (r : outcome A * Dev * list call) : Prop :=
  match outcome_of r with
  | Failed f =>
      exists pre c,
        calls_of r = (pre ++ [c])%list /\
        Forall succeeded pre /\ ~ succeeded c /\ reports f c
  | _ => Forall succeeded (calls_of r)
  end.

(** A line of the command list that [commands_helper] does not skip. *)
Definition nonblank (line : string) : bool := negb (strip line =? "").

(** The calls of a trace made from [s]. *)
Definition calls_at (s : site) (t : list call) : list call :=
  filter (fun c => site_eqb (call_site c) s) t.

(** What [command_helper] returns for a successful call. *)
Definition trimmed (c : call) : string := strip (call_stdout c).

(** What a successful apply or save call adds to the output. *)
Definition kept (c : call) : list string :=
  if truthy (trimmed c) then [trimmed c] else [].

(** One entry if the step [s] ran and printed something, none otherwise. *)
Definition extra (s : site) (t : list call) : nat :=
  match calls_at s t with
  | c :: _ => if truthy (trimmed c) then 1 else 0
  | [] => 0
  end.

(** A step that runs at most once. *)
Definition phase (s : site) (t : list call) : Prop :=
  t = [] \/ exists c, t = [c] /\ call_site c = s.

(** The command list of a request, when it has one. *)
Definition command_list (p : params) : option (list string) :=
  match commands p with
  | _ :: _ => Some (commands p)
  | [] => option_map splitlines (template p)
  end.

(** The request with [atomic] spelled out as [detach] and [apply]; the
    other options stay. *)
Definition spell_atomic (p : params) : params :=
  {| apply := true;
     atomic := false;
     commands := commands p;
     confirm := confirm p;
     confirm_no := confirm_no p;
     confirm_timeout := confirm_timeout p;
     confirm_yes := confirm_yes p;
     detach := true;
     save := save p;
     template := template p |}.

(** The request with [save] switched off. *)
Definition no_save (p : params) : params :=
  {| apply := apply p;
     atomic := atomic p;
     commands := commands p;
     confirm := confirm p;
     confirm_no := confirm_no p;
     confirm_timeout := confirm_timeout p;
     confirm_yes := confirm_yes p;
     detach := detach p;
     save := false;
     template := template p |}.

(** The command line a call made from [s] carries in a session of [p]. *)
Definition line_at (p : params) (s : site) (line : string) : Prop :=
  match s with
  | Detach => line = "/usr/bin/nv config detach"
  | DiffBefore | DiffAfter => line = "/usr/bin/nv config diff"
  | Config =>
      exists l, In l (default [] (command_list p)) /\ nonblank l = true /\
                line = "/usr/bin/nv " ++ strip l
  | Apply =>
      line = "/usr/bin/nv config apply --assume-yes " ++
             apply_options (resolve_flags p)
  | Save => line = "/usr/bin/nv config save"
  end.

(** The command lines the session sends whatever the request says. *)
Definition fixed_lines : list string :=
  [ "/usr/bin/nv config detach"; "/usr/bin/nv config diff";
    "/usr/bin/nv config save" ].

(** *** Vocabulary of the further properties *)

(** The request check-mode stands for: detach, no apply, no save. *)
Definition dry_run (p : params) : params :=
  {| apply := false;
     atomic := false;
     commands := commands p;
     confirm := false;
     confirm_no := confirm_no p;
     confirm_timeout := confirm_timeout p;
     confirm_yes := confirm_yes p;
     detach := true;
     save := false;
     template := template p |}.

Definition with_commands (l : list string) (p : params) : params :=
  {| apply := apply p;
     atomic := atomic p;
     commands := l;
     confirm := confirm p;
     confirm_no := confirm_no p;
     confirm_timeout := confirm_timeout p;
     confirm_yes := confirm_yes p;
     detach := detach p;
     save := save p;
     template := template p |}.

Definition with_template (o : option string) (p : params) : params :=
  {| apply := apply p;
     atomic := atomic p;
     commands := commands p;
     confirm := confirm p;
     confirm_no := confirm_no p;
     confirm_timeout := confirm_timeout p;
     confirm_yes := confirm_yes p;
     detach := detach p;
     save := save p;
     template := o |}.






(** The calls of a trace, gathered step by step in the order of the
    session. *)
Definition by_step (t : list call) : list call :=
  (calls_at Detach t ++ calls_at DiffBefore t ++ calls_at Config t ++
   calls_at DiffAfter t ++ calls_at Apply t ++ calls_at Save t)%list.

(** The command line of a command of the list. *)
Definition nv_line (l : string) : string := "/usr/bin/nv " ++ strip l.

Fixpoint last_char (s : string) : option ascii :=
  match s with
  | EmptyString => None
  | String c EmptyString => Some c
  | String _ s' => last_char s'
  end.

Definition first_char (s : string) : option ascii :=
  match s with
  | EmptyString => None
  | String c _ => Some c
  end.

(** A string that neither starts nor ends with white space. *)
Definition tight (s : string) : Prop :=
  (forall c, first_char s = Some c -> isspace c = false) /\
  (forall c, last_char s = Some c -> isspace c = false).

(** A string without a line boundary. *)
Fixpoint one_line (s : string) : bool :=
  match s with
  | EmptyString => true
  | String c s' => negb (islinebreak c) && one_line s'
  end.

(** *** Stepping through a run *)

Lemma command_helper_cases (s : site) (command : string) (d : Dev) :
  exists rc out err d',
    run_command ("/usr/bin/nv " ++ command) d = (rc, out, err, d') /\
    ((rc = 0%Z /\
      command_helper s command d =
        (Returned (strip out), d',
         [Call s ("/usr/bin/nv " ++ command) rc out err])) \/
     (rc <> 0%Z /\
      command_helper s command d =
        (Failed (ExecutionFailure ("Failed on line '" ++ command ++ "'")
                   rc out err), d',
         [Call s ("/usr/bin/nv " ++ command) rc out err]))).
Proof.
  unfold command_helper, bind, exec.
  destruct (run_command ("/usr/bin/nv " ++ command) d)
    as [[[rc out] err] d'] eqn:E.
  exists rc, out, err, d'. split; [reflexivity|].
  destruct (Z.eqb_spec rc 0) as [->|Hne]; [left|right]; split; auto.
Qed.



(** *** Resolving commands and flags *)

Lemma append_assoc (a b c : string) : (a ++ b) ++ c = a ++ (b ++ c).
Proof. induction a as [|x a IH]; simpl; [reflexivity | now rewrite IH]. Qed.

Lemma append_nil_r (a : string) : a ++ "" = a.
Proof. induction a as [|x a IH]; simpl; [reflexivity | now rewrite IH]. Qed.

Lemma resolve_commands_eq (p : params) (d : Dev) :
  resolve_commands p d =
    (match command_list p with
     | Some cmds => Returned cmds
     | None =>
         Raised (AttributeError
                   "'NoneType' object has no attribute 'splitlines'")
     end, d, []).
Proof.
  unfold resolve_commands, command_list.
  destruct (commands p); [destruct (template p)|]; reflexivity.
Qed.

Lemma command_list_some (p : params) :
  commands p <> [] \/ template p <> None ->
  exists cmds, command_list p = Some cmds.
Proof.
  unfold command_list. intros [H|H].
  - destruct (commands p); [contradiction | eauto].
  - destruct (commands p); [|eauto].
    destruct (template p); [simpl; eauto | contradiction].
Qed.

Lemma do_apply_eq (p : params) :
  do_apply (resolve_flags p) = apply p || confirm p || atomic p.
Proof.
  unfold resolve_flags.
  destruct (apply p), (confirm p), (atomic p); reflexivity.
Qed.

Lemma do_detach_eq (p : params) :
  do_detach (resolve_flags p) = detach p || atomic p.
Proof.
  unfold resolve_flags.
  destruct (detach p), (confirm p), (atomic p); reflexivity.
Qed.

Lemma apply_options_eq (p : params) :
  apply_options (resolve_flags p) =
    (if confirm p then " --confirm " ++ confirm_timeout p else "") ++
    (if confirm_yes p then " --confirm-yes" else "") ++
    (if confirm_no p then " --confirm-no" else "").
Proof.
  unfold resolve_flags.
  destruct (confirm p), (confirm_yes p), (confirm_no p), (atomic p);
    simpl; rewrite ?append_assoc, ?append_nil_r; reflexivity.
Qed.

(** *** Laws of the trace *)

Lemma calls_bind {A B : Type} (m : M A) (f : A -> M B) (d : Dev) :
  exists rest, calls_of (bind m f d) = (calls_of (m d) ++ rest)%list.
Proof.
  unfold bind, calls_of.
  destruct (m d) as [[[a|e|e] d1] t1]; simpl.
  - destruct (f a d1) as [[o d2] t2]. simpl. now exists t2.
  - exists []. now rewrite app_nil_r.
  - exists []. now rewrite app_nil_r.
Qed.

Lemma always_ret {A : Type} (P : call -> Prop) (a : A) : always P (ret a).
Proof. intros d. constructor. Qed.

Lemma always_raise {A : Type} (P : call -> Prop) (e : exception) :
  always P (@raise A e).
Proof. intros d. constructor. Qed.

Lemma always_bind {A B : Type} (P : call -> Prop) (m : M A) (f : A -> M B) :
  always P m -> (forall a, always P (f a)) -> always P (bind m f).
Proof.
  intros Hm Hf d. specialize (Hm d). unfold bind, calls_of in *.
  destruct (m d) as [[[a|e|e] d1] t1]; simpl in *; auto.
  specialize (Hf a d1). unfold calls_of in Hf.
  destruct (f a d1) as [[o d2] t2]. simpl in *.
  apply Forall_app. now split.
Qed.

Lemma always_bind_resolve {B : Type} (P : call -> Prop) (p : params)
    (f : list string -> M B) :
  (forall cmds, command_list p = Some cmds -> always P (f cmds)) ->
  always P (bind (resolve_commands p) f).
Proof.
  intros Hf d. unfold bind. rewrite resolve_commands_eq.
  destruct (command_list p) as [cmds|]; [|constructor].
  specialize (Hf cmds eq_refl d). unfold calls_of in *.
  now destruct (f cmds d) as [[o d2] t2].
Qed.

Lemma always_command_helper (P : call -> Prop) (s : site) (command : string) :
  (forall rc out err, P (Call s ("/usr/bin/nv " ++ command) rc out err)) ->
  always P (command_helper s command).
Proof.
  intros HP d.
  destruct (command_helper_cases s command d)
    as (rc & out & err & d1 & _ & [[_ ->] | [_ ->]]);
    repeat constructor; apply HP.
Qed.

Lemma always_commands_helper (P : call -> Prop) (cmds : list string) :
  (forall line rc out err,
      In line cmds -> nonblank line = true ->
      P (Call Config ("/usr/bin/nv " ++ strip line) rc out err)) ->
  always P (commands_helper cmds).
Proof.
  induction cmds as [|line rest IH]; intros HP; simpl.
  - apply always_ret.
  - assert (Hrest : always P (commands_helper rest))
      by (apply IH; intros; apply HP; simpl; auto).
    destruct (strip line =? "") eqn:E; [exact Hrest|].
    apply always_bind.
    + apply always_command_helper. intros.
      apply HP; [now left | unfold nonblank; now rewrite E].
    + intros out. apply always_bind; [exact Hrest|].
      intros outs. apply always_ret.
Qed.

Lemma always_resolve_commands (P : call -> Prop) (p : params) :
  always P (resolve_commands p).
Proof. intros d. rewrite resolve_commands_eq. constructor. Qed.

(** *** Fail fast *)

Lemma fail_fast_ret {A : Type} (a : A) (d : Dev) : fail_fast (ret a d).
Proof. constructor. Qed.

Lemma fail_fast_raise {A : Type} (e : exception) (d : Dev) :
  fail_fast (@raise A e d).
Proof. constructor. Qed.

Lemma fail_fast_bind {A B : Type} (m : M A) (f : A -> M B) :
  (forall d, fail_fast (m d)) -> (forall a d, fail_fast (f a d)) ->
  forall d, fail_fast (bind m f d).
Proof.
  intros Hm Hf d. specialize (Hm d).
  unfold bind, fail_fast, outcome_of, calls_of in *.
  destruct (m d) as [[[a|e|e] d1] t1]; simpl in *; auto.
  specialize (Hf a d1). unfold fail_fast, outcome_of, calls_of in Hf.
  destruct (f a d1) as [[[b|e|e] d2] t2]; simpl in *.
  - apply Forall_app. now split.
  - destruct Hf as (pre & c & -> & Hpre & Hc & Hrep).
    exists (t1 ++ pre)%list, c. rewrite app_assoc.
    repeat split; auto. apply Forall_app. now split.
  - apply Forall_app. now split.
Qed.

Lemma fail_fast_command_helper (s : site) (command : string) (d : Dev) :
  fail_fast (command_helper s command d).
Proof.
  destruct (command_helper_cases s command d)
    as (rc & out & err & d1 & _ & [[Hrc ->] | [Hrc ->]]);
    unfold fail_fast; simpl.
  - repeat constructor. exact Hrc.
  - exists [], (Call s ("/usr/bin/nv " ++ command) rc out err).
    repeat split; auto. exists command. split; reflexivity.
Qed.

Lemma fail_fast_commands_helper (cmds : list string) (d : Dev) :
  fail_fast (commands_helper cmds d).
Proof.
  revert d. induction cmds as [|line rest IH]; intros d; simpl.
  - apply fail_fast_ret.
  - destruct (strip line =? ""); [apply IH|].
    apply fail_fast_bind; [apply fail_fast_command_helper|].
    intros out. apply fail_fast_bind; [exact IH|].
    intros outs. apply fail_fast_ret.
Qed.

Lemma fail_fast_resolve_commands (p : params) (d : Dev) :
  fail_fast (resolve_commands p d).
Proof.
  unfold resolve_commands.
  destruct (commands p); [destruct (template p)|]; constructor.
Qed.

Lemma fail_fast_run_nvue (p : params) (check_mode : bool) (d : Dev) :
  fail_fast (run_nvue p check_mode d).
Proof.
  unfold run_nvue, check_pending.
  repeat first
    [ apply fail_fast_ret
    | apply fail_fast_command_helper
    | apply fail_fast_commands_helper
    | apply fail_fast_resolve_commands
    | apply fail_fast_bind; intros
    | match goal with
      | |- fail_fast ((if ?b then _ else _) _) => destruct b
      | |- fail_fast ((let '(_, _) := ?x in _) _) => destruct x
      end ].
Qed.

(** *** The shape of a session that returns *)

Lemma commands_helper_returned
    (cmds : list string) (d d' : Dev) (outs : list string) (t : list call) :
  commands_helper cmds d = (Returned outs, d', t) ->
  Forall (fun c => call_site c = Config) t /\
  map call_line t =
    map (fun l => "/usr/bin/nv " ++ strip l) (filter nonblank cmds) /\
  outs = map trimmed t.
Proof.
  revert d d' outs t.
  induction cmds as [|line rest IH]; intros d d' outs t; simpl.
  - unfold ret. intros [= <- _ <-]. repeat split; constructor.
  - unfold nonblank at 1. destruct (strip line =? ""); simpl; [apply IH|].
    unfold bind.
    destruct (command_helper_cases Config (strip line) d)
      as (rc & out & err & d1 & _ & [[_ ->] | [_ ->]]); [|discriminate].
    destruct (commands_helper rest d1) as [[[outs'|f|e] d2] t2] eqn:E;
      try discriminate.
    apply IH in E. destruct E as (Hs & Hl & ->).
    unfold ret. intros [= <- _ <-]. rewrite app_nil_r. simpl.
    repeat split; [constructor; auto | now rewrite Hl].
Qed.

Lemma calls_at_other (s s' : site) (t : list call) :
  Forall (fun c => call_site c = s') t -> s <> s' -> calls_at s t = [].
Proof.
  intros H Hne. induction H as [|c t Hc _ IH]; simpl; [reflexivity|].
  rewrite Hc. destruct s, s'; simpl; auto; contradiction.
Qed.

Lemma calls_at_same (s : site) (t : list call) :
  Forall (fun c => call_site c = s) t -> calls_at s t = t.
Proof.
  intros H. induction H as [|c t Hc _ IH]; simpl; [reflexivity|].
  rewrite Hc, IH. now destruct s.
Qed.

Lemma phase_sites (s : site) (t : list call) :
  phase s t -> Forall (fun c => call_site c = s) t.
Proof. intros [->|(c & -> & Hc)]; repeat constructor; auto. Qed.

Lemma bind_returned {A B : Type} (m : M A) (f : A -> M B)
    (d d' : Dev) (b : B) (t : list call) :
  bind m f d = (Returned b, d', t) ->
  exists a d1 t1 t2,
    m d = (Returned a, d1, t1) /\ f a d1 = (Returned b, d', t2) /\
    t = (t1 ++ t2)%list.
Proof.
  unfold bind. destruct (m d) as [[[a|e|e] d1] t1]; try discriminate.
  destruct (f a d1) as [[o d2] t2] eqn:E. intros [= -> -> <-].
  now exists a, d1, t1, t2.
Qed.

Lemma command_helper_returned
    (s : site) (command : string) (d d' : Dev) (a : string)
    (t : list call) :
  command_helper s command d = (Returned a, d', t) ->
  exists c,
    t = [c] /\ call_site c = s /\
    call_line c = "/usr/bin/nv " ++ command /\ succeeded c /\
    a = trimmed c.
Proof.
  destruct (command_helper_cases s command d)
    as (rc & out & err & d1 & _ & [[Hrc ->] | [_ ->]]); [|discriminate].
  intros [= <- _ <-]. eexists. repeat split. exact Hrc.
Qed.

Lemma detach_returned (b : bool) (d d' : Dev) (a : string) (t : list call) :
  (if b then command_helper Detach "config detach" else ret "") d =
    (Returned a, d', t) ->
  phase Detach t.
Proof.
  destruct b.
  - intros H. apply command_helper_returned in H.
    destruct H as (c & -> & Hc & _). right. now exists c.
  - intros [= _ _ <-]. now left.
Qed.

(** The apply and the save step, when they return. *)
Lemma optional_returned
    (b : bool) (s : site) (command : string) (changed changed' : bool)
    (output output' : list string) (d d' : Dev) (t : list call) :
  (if b then
     ret_ <- command_helper s command ;;
     ret (true, if truthy ret_ then (output ++ [ret_])%list else output)
   else ret (changed, output)) d = (Returned (changed', output'), d', t) ->
  phase s t /\
  changed' = match t with [] => changed | _ :: _ => true end /\
  output' = (output ++ flat_map kept t)%list.
Proof.
  destruct b.
  - intros H. apply bind_returned in H.
    destruct H as (a & d1 & t1 & t2 & H1 & H2 & ->).
    apply command_helper_returned in H1.
    destruct H1 as (c & -> & Hc & _ & _ & ->).
    unfold ret in H2. injection H2 as <- <- _ <-.
    split; [right; now exists c|]. split; [reflexivity|].
    cbn [app flat_map]. unfold kept.
    destruct (truthy (trimmed c)); now rewrite ?app_nil_r.
  - intros [= <- <- _ <-]. split; [now left|].
    split; [reflexivity|]. simpl. now rewrite app_nil_r.
Qed.

Lemma run_nvue_returned
    (p : params) (check_mode : bool) (d d' : Dev) (res : result)
    (t : list call) :
  run_nvue p check_mode d = (Returned res, d', t) ->
  exists cmds tdet cb tcfg ca tapp tsav,
    command_list p = Some cmds /\
    t = (tdet ++ cb :: tcfg ++ ca :: tapp ++ tsav)%list /\
    phase Detach tdet /\
    call_site cb = DiffBefore /\
    Forall (fun c => call_site c = Config) tcfg /\
    map call_line tcfg =
      map (fun l => "/usr/bin/nv " ++ strip l) (filter nonblank cmds) /\
    call_site ca = DiffAfter /\
    phase Apply tapp /\
    phase Save tsav /\
    res_diff res = Diff (trimmed cb) (trimmed ca) /\
    output res =
      (map trimmed tcfg ++ flat_map kept tapp ++ flat_map kept tsav)%list /\
    changed res =
      match (tapp ++ tsav)%list with
      | [] => negb (trimmed cb =? trimmed ca)
      | _ :: _ => true
      end.
Proof.
  intros H. unfold run_nvue in H.
  apply bind_returned in H.
  destruct H as (cmds & d1 & t1 & ? & Hcmds & H & ->). cbv zeta in H.
  rewrite resolve_commands_eq in Hcmds.
  destruct (command_list p) as [cmds'|] eqn:Hlist; [|discriminate].
  injection Hcmds as -> <- <-.
  apply bind_returned in H.
  destruct H as (skip & d2 & tdet & ? & Hdet & H & ->).
  apply detach_returned in Hdet.
  apply bind_returned in H.
  destruct H as (bef & d3 & tbef & ? & Hbef & H & ->).
  apply command_helper_returned in Hbef.
  destruct Hbef as (cb & -> & Hcb & _ & _ & ->).
  apply bind_returned in H.
  destruct H as (outs & d4 & tcfg & ? & Hcfg & H & ->).
  apply commands_helper_returned in Hcfg.
  destruct Hcfg as (Hsites & Hlines & ->).
  apply bind_returned in H.
  destruct H as (aft & d5 & taft & ? & Haft & H & ->).
  apply command_helper_returned in Haft.
  destruct Haft as (ca & -> & Hca & _ & _ & ->).
  apply bind_returned in H.
  destruct H as ([ch1 out1] & d6 & tapp & ? & Happ & H & ->).
  apply optional_returned in Happ.
  destruct Happ as (Happ & -> & ->).
  apply bind_returned in H.
  destruct H as ([ch2 out2] & d7 & tsav & ? & Hsav & H & ->).
  apply optional_returned in Hsav.
  destruct Hsav as (Hsav & -> & ->).
  unfold ret in H. injection H as <- _ <-.
  exists cmds, tdet, cb, tcfg, ca, tapp, tsav.
  rewrite app_nil_r. cbn [res_diff output changed app].
  rewrite <- app_assoc.
  repeat split; auto.
  destruct tapp, tsav; reflexivity.
Qed.

Lemma calls_at_session
    (s : site) (tdet : list call) (cb : call) (tcfg : list call) (ca : call)
    (tapp tsav : list call) :
  phase Detach tdet -> call_site cb = DiffBefore ->
  Forall (fun c => call_site c = Config) tcfg -> call_site ca = DiffAfter ->
  phase Apply tapp -> phase Save tsav ->
  calls_at s (tdet ++ cb :: tcfg ++ ca :: tapp ++ tsav) =
    match s with
    | Detach => tdet
    | DiffBefore => [cb]
    | Config => tcfg
    | DiffAfter => [ca]
    | Apply => tapp
    | Save => tsav
    end.
Proof.
  intros Hdet Hcb Hcfg Hca Happ Hsav.
  apply phase_sites in Hdet, Happ, Hsav.
  unfold calls_at.
  rewrite filter_app. cbn [filter]. rewrite filter_app. cbn [filter].
  rewrite filter_app. fold (calls_at s tdet) (calls_at s tcfg)
    (calls_at s tapp) (calls_at s tsav).
  rewrite Hcb, Hca.
  destruct s; cbn [site_eqb];
    rewrite ?(calls_at_same _ _ Hdet), ?(calls_at_same _ _ Hcfg),
      ?(calls_at_same _ _ Happ), ?(calls_at_same _ _ Hsav);
    rewrite ?(calls_at_other _ _ _ Hdet), ?(calls_at_other _ _ _ Hcfg),
      ?(calls_at_other _ _ _ Happ), ?(calls_at_other _ _ _ Hsav)
      by discriminate;
    rewrite ?app_nil_r; reflexivity.
Qed.

Lemma in_session
    (c : call) (tdet : list call) (cb : call) (tcfg : list call) (ca : call)
    (tapp tsav : list call) :
  In c (tdet ++ cb :: tcfg ++ ca :: tapp ++ tsav) <->
  In c tdet \/ c = cb \/ In c tcfg \/ c = ca \/ In c tapp \/ In c tsav.
Proof.
  repeat (rewrite in_app_iff || cbn [In]).
  intuition auto.
Qed.

Lemma extra_phase (s : site) (t : list call) :
  phase s t ->
  (match t with c :: _ => if truthy (trimmed c) then 1 else 0 | [] => 0 end)
  = length (flat_map kept t).
Proof.
  intros [->|(c & -> & _)]; [reflexivity|].
  simpl. unfold kept. now destruct (truthy (trimmed c)).
Qed.

(** ** Properties of the session *)

(** C2. Whenever a call of the executor made during a session returns a
    non-zero exit code, the session ends through [fail_json] with a report
    made of the line that failed, its exit code, its stdout and its
    stderr; that call is the last one of the session, and no result is
    returned. *)
Theorem failing_call_aborts_session
    (p : params) (check_mode : bool) (d : Dev) (c : call) :
  In c (calls_of (run_nvue p check_mode d)) ->
  call_rc c <> 0%Z ->
  (exists line,
      call_line c = "/usr/bin/nv " ++ line /\
      outcome_of (run_nvue p check_mode d) =
        Failed (ExecutionFailure ("Failed on line '" ++ line ++ "'")
                  (call_rc c) (call_stdout c) (call_stderr c))) /\
  (exists pre,
      calls_of (run_nvue p check_mode d) = (pre ++ [c])%list /\
      Forall succeeded pre) /\
  (forall r, outcome_of (run_nvue p check_mode d) <> Returned r).
Proof.
  intros Hin Hrc.
  pose proof (fail_fast_run_nvue p check_mode d) as H.
  unfold fail_fast in H.
  destruct (outcome_of (run_nvue p check_mode d)) as [r|f|e].
  - rewrite Forall_forall in H. now apply H in Hin.
  - destruct H as (pre & c0 & Ht & Hpre & Hc0 & line & Hline & ->).
    rewrite Ht in Hin. apply in_app_or in Hin.
    destruct Hin as [Hin|[<-|[]]].
    + rewrite Forall_forall in Hpre. now apply Hpre in Hin.
    + repeat split; [exists line; auto | exists pre; auto | discriminate].
  - rewrite Forall_forall in H. now apply H in Hin.
Qed.


(** Reduces a goal [always P m] to [P] at the calls [m] can make. *)
Ltac all_calls :=
  repeat match goal with
    | |- always _ (ret _) => apply always_ret
    | |- always _ (resolve_commands _) => apply always_resolve_commands
    | |- always _ (command_helper _ _) =>
        apply always_command_helper; intros
    | |- always _ (commands_helper _) =>
        apply always_commands_helper; intros
    | |- always _ (bind (resolve_commands _) _) =>
        apply always_bind_resolve; intros ? ?; cbv beta
    | |- always _ (bind _ _) => apply always_bind; [|intro; cbv beta]
    | |- always _ (if _ && false && _ then _ else _) =>
        rewrite andb_false_r; cbn [andb]
    | |- always _ (if _ && false then _ else _) => rewrite andb_false_r
    | |- always _ (if ?b then _ else _) => destruct b
    | |- always _ (let '(_, _) := ?x in _) => destruct x
    end.

(** Every call carries the command line of the place that made it. *)
Lemma lines_by_site (p : params) (check_mode : bool) :
  always (fun c => line_at p (call_site c) (call_line c))
    (run_nvue p check_mode).
Proof.
  unfold run_nvue, check_pending.
  all_calls; try reflexivity.
  simpl. exists line.
  match goal with H : command_list _ = Some _ |- _ => rewrite H end.
  auto.
Qed.

(** C1. In check-mode no call is ever made from the apply or the save
    step, whatever the flags: every command line sent is the detach line,
    the diff line or a line of the request's command list.  When the request
    has a command list ([commands] is not empty or [template] is given) the
    first call of the session is the detach command, whatever the detach
    flag. *)
Theorem check_mode_detaches_never_applies_nor_saves
    (p : params) (d : Dev) :
  (forall c, In c (calls_of (run_nvue p true d)) ->
             call_site c <> Apply /\ call_site c <> Save /\
             (In (call_line c)
                ["/usr/bin/nv config detach"; "/usr/bin/nv config diff"] \/
              exists line,
                In line (default [] (command_list p)) /\
                nonblank line = true /\
                call_line c = "/usr/bin/nv " ++ strip line)) /\
  (commands p <> [] \/ template p <> None ->
   exists rc out err rest,
     fst (run_command "/usr/bin/nv config detach" d) = (rc, out, err) /\
     calls_of (run_nvue p true d) =
       Call Detach "/usr/bin/nv config detach" rc out err :: rest).
Proof.
  split.
  - assert (Hsites : always (fun c => call_site c <> Apply /\
                                      call_site c <> Save)
                       (run_nvue p true)).
    { unfold run_nvue, check_pending. cbn [negb].
      all_calls; simpl; split; discriminate. }
    intros c Hin.
    pose proof (proj1 (Forall_forall _ _) (Hsites d) c Hin) as [Ha Hs].
    pose proof (proj1 (Forall_forall _ _) (lines_by_site p true d) c Hin)
      as Hline.
    repeat split; auto.
    revert Ha Hs Hline. unfold line_at.
    destruct (call_site c); intros Ha Hs Hline;
      try contradiction; try (left; rewrite Hline; simpl; tauto).
    right. exact Hline.
  - intros Hp. destruct (command_list_some p Hp) as [cmds Hc].
    unfold run_nvue. unfold bind at 1.
    rewrite resolve_commands_eq, Hc, orb_true_r.
    match goal with
    | |- context [bind ?m ?f d] =>
        destruct (calls_bind m f d) as [rest Hrest]
    end.
    destruct (command_helper_cases Detach "config detach" d)
      as (rc & out & err & d1 & Hdev & [[_ Hrun] | [_ Hrun]]);
      rewrite Hrun in Hrest;
      destruct (bind _ _ d) as [[o d2] t2]; unfold calls_of in *;
      simpl in Hrest |- *; subst t2;
      exists rc, out, err, rest; simpl in Hdev; rewrite Hdev;
      split; reflexivity.
Qed.

(** C6. With [confirm] true the apply flag in force is true whatever
    [apply] was, and every command line sent from the apply step contains
    [--confirm] followed by the request's [confirm_timeout], and
    [--assume-yes]. *)
Theorem confirm_forces_apply_and_passes_timeout
    (p : params) (check_mode : bool) (d : Dev) :
  confirm p = true ->
  do_apply (resolve_flags p) = true /\
  (forall c, In c (calls_of (run_nvue p check_mode d)) ->
             call_site c = Apply ->
             substring_of ("--confirm " ++ confirm_timeout p) (call_line c)
             /\ substring_of "--assume-yes" (call_line c)).
Proof.
  intros Hc. split.
  - rewrite do_apply_eq, Hc. now rewrite orb_true_r.
  - enough (H : always
              (fun c => call_site c = Apply ->
                        substring_of ("--confirm " ++ confirm_timeout p)
                          (call_line c)
                        /\ substring_of "--assume-yes" (call_line c))
              (run_nvue p check_mode))
      by (intros c Hin; exact (proj1 (Forall_forall _ _) (H d) c Hin)).
    unfold run_nvue, check_pending.
    rewrite apply_options_eq, Hc.
    all_calls; try (simpl in *; discriminate).
    all: split.
    all: try (exists "/usr/bin/nv config apply --assume-yes  ",
               ((if confirm_yes p then " --confirm-yes" else "") ++
                (if confirm_no p then " --confirm-no" else ""));
              cbn [call_line]; rewrite !append_assoc; reflexivity).
    all: eexists "/usr/bin/nv config apply ", _; reflexivity.
Qed.


(** C10. With [confirm_yes] or [confirm_no] set while [apply], [confirm]
    and [atomic] are not, the apply flag in force stays false and no call
    is made from the apply step; every command line of the session is
    then the detach, diff or save line or a line of the request's own
    command list, so the session itself never sends [--confirm-yes] or
    [--confirm-no]. *)
Theorem confirm_yes_no_alone_never_apply
    (p : params) (check_mode : bool) (d : Dev) :
  confirm_yes p = true \/ confirm_no p = true ->
  apply p = false -> confirm p = false -> atomic p = false ->
  do_apply (resolve_flags p) = false /\
  (forall c, In c (calls_of (run_nvue p check_mode d)) ->
             call_site c <> Apply /\
             (In (call_line c) fixed_lines \/
              exists line,
                In line (default [] (command_list p)) /\
                call_line c = "/usr/bin/nv " ++ strip line)).
Proof.
  intros _ Ha Hc Hat.
  assert (Hf : do_apply (resolve_flags p) = false)
    by (rewrite do_apply_eq, Ha, Hc, Hat; reflexivity).
  split; [exact Hf|].
  apply Forall_forall. revert d.
  change (always
            (fun c => call_site c <> Apply /\
                      (In (call_line c) fixed_lines \/
                       exists line,
                         In line (default [] (command_list p)) /\
                         call_line c = "/usr/bin/nv " ++ strip line))
            (run_nvue p check_mode)).
  unfold run_nvue, check_pending. rewrite Hf.
  all_calls; (split; [simpl; discriminate|]).
  all: try (left; simpl; tauto).
  all: right; exists line;
    match goal with H : command_list _ = Some _ |- _ => rewrite H end;
    split; [assumption | reflexivity].
Qed.


(** C4. When a session returns without a call from the apply or the save
    step, [changed] is the inequality of the two diff snapshots, which are
    the trimmed outputs of the diff calls before and after the commands;
    equal snapshots then give [changed = false]. *)
Theorem changed_is_diff_inequality
    (p : params) (check_mode : bool) (d : Dev) (res : result) :
  outcome_of (run_nvue p check_mode d) = Returned res ->
  (forall c, In c (calls_of (run_nvue p check_mode d)) ->
             call_site c <> Apply /\ call_site c <> Save) ->
  (exists cb ca,
      calls_at DiffBefore (calls_of (run_nvue p check_mode d)) = [cb] /\
      calls_at DiffAfter (calls_of (run_nvue p check_mode d)) = [ca] /\
      before (res_diff res) = trimmed cb /\
      after (res_diff res) = trimmed ca) /\
  changed res = negb (before (res_diff res) =? after (res_diff res)) /\
  (before (res_diff res) = after (res_diff res) -> changed res = false).
Proof.
  destruct (run_nvue p check_mode d) as [[o d'] t] eqn:E.
  unfold outcome_of, calls_of. simpl. intros -> Hno.
  apply run_nvue_returned in E.
  destruct E as (cmds & tdet & cb & tcfg & ca & tapp & tsav & _ & -> &
                 Hdet & Hcb & Hcfg & _ & Hca & Happ & Hsav & Hdiff & _ & Hch).
  assert (Htapp : tapp = []).
  { destruct Happ as [->|(c & -> & Hc)]; [reflexivity|].
    destruct (Hno c) as [Hn _]; [|contradiction].
    apply in_session. simpl. auto 10. }
  assert (Htsav : tsav = []).
  { destruct Hsav as [->|(c & -> & Hc)]; [reflexivity|].
    destruct (Hno c) as [_ Hn]; [|contradiction].
    apply in_session. simpl. auto 10. }
  subst tapp tsav. simpl in Hch. rewrite Hdiff, Hch. simpl.
  split; [|split].
  - exists cb, ca.
    rewrite !(calls_at_session _ tdet cb tcfg ca [] []); auto;
      now left.
  - reflexivity.
  - intros ->. now rewrite String.eqb_refl.
Qed.

(** C5. When a session returns, its output has one entry for each line of
    the command list that is not blank once trimmed, one more if the apply
    step ran and printed something, and one more if the save step ran and
    printed something; the first entries are the trimmed outputs of the
    commands, which ran in the order of the list. *)
Theorem output_length_and_order
    (p : params) (check_mode : bool) (d : Dev) (res : result) :
  outcome_of (run_nvue p check_mode d) = Returned res ->
  exists cmds,
    command_list p = Some cmds /\
    length (output res) =
      length (filter nonblank cmds)
      + extra Apply (calls_of (run_nvue p check_mode d))
      + extra Save (calls_of (run_nvue p check_mode d)) /\
    firstn (length (filter nonblank cmds)) (output res) =
      map trimmed (calls_at Config (calls_of (run_nvue p check_mode d))) /\
    map call_line (calls_at Config (calls_of (run_nvue p check_mode d))) =
      map (fun line => "/usr/bin/nv " ++ strip line) (filter nonblank cmds).
Proof.
  destruct (run_nvue p check_mode d) as [[o d'] t] eqn:E.
  unfold outcome_of, calls_of. simpl. intros ->.
  apply run_nvue_returned in E.
  destruct E as (cmds & tdet & cb & tcfg & ca & tapp & tsav & Hlist & -> &
                 Hdet & Hcb & Hcfg & Hlines & Hca & Happ & Hsav & _ &
                 Hout & _).
  exists cmds. unfold extra.
  rewrite !(calls_at_session _ tdet cb tcfg ca tapp tsav) by assumption.
  assert (Hlen : length (map trimmed tcfg) = length (filter nonblank cmds)).
  { rewrite length_map, <- (length_map call_line), Hlines.
    now rewrite length_map. }
  rewrite (extra_phase Apply), (extra_phase Save) by assumption.
  rewrite Hout. repeat split; auto.
  - rewrite !length_app, Hlen. lia.
  - rewrite <- Hlen. rewrite firstn_app, Nat.sub_diag, firstn_all. simpl.
    now rewrite app_nil_r.
Qed.


(** One step of a run recorded in [H]. *)
Ltac step H :=
  match type of H with
  | context [resolve_commands ?p ?d] =>
      rewrite (resolve_commands_eq p d) in H;
      destruct (command_list p) eqn:?
  | context [command_helper ?s ?c ?d] =>
      let rc := fresh "rc" in
      let out := fresh "out" in
      let err := fresh "err" in
      let d1 := fresh "d" in
      let Hrc := fresh "Hrc" in
      let Hrun := fresh "Hrun" in
      destruct (command_helper_cases s c d)
        as (rc & out & err & d1 & _ & [[Hrc Hrun] | [Hrc Hrun]]);
      rewrite Hrun in H; clear Hrun
  | context [commands_helper ?l ?d] =>
      let outs := fresh "outs" in
      let d1 := fresh "d" in
      let tcfg := fresh "tcfg" in
      let Hcfg := fresh "Hcfg" in
      pose proof (always_commands_helper
                    (fun c => call_site c = Config) l
                    (fun _ _ _ _ _ _ => eq_refl) d) as Hcfg;
      unfold calls_of in Hcfg;
      destruct (commands_helper l d) as [[[outs|?|?] d1] tcfg];
      cbn [snd] in Hcfg
  | context [if ?b then _ else _] => destruct b eqn:?
  end;
  cbv beta iota zeta in H.

(** Splits the membership [H] of a call in a trace into its cases. *)
Ltac in_trace H :=
  repeat match type of H with
    | In _ (_ :: _) => destruct H as [<-|H]
    | In _ (_ ++ _) => apply in_app_or in H; destruct H as [H|H]
    | In _ [] => destruct H
    | In ?c ?t =>
        match goal with
        | F : Forall _ t |- _ =>
            apply (proj1 (Forall_forall _ _) F) in H
        end
    end.

Ltac found s :=
  match goal with
  | |- context [Call s ?l ?rc ?o ?e] =>
      exists (Call s l rc o e);
      split; [repeat (rewrite in_app_iff || cbn [In]); auto 12|]
  end.

Lemma apply_iff (p : params) (d : Dev) :
  (exists c, In c (calls_of (run_nvue p false d)) /\ call_site c = Apply)
  <->
  (exists c, In c (calls_of (run_nvue p false d)) /\
             call_site c = DiffAfter /\ succeeded c /\
             truthy (trimmed c) = true) /\
  do_apply (resolve_flags p) = true.
Proof.
  destruct (run_nvue p false d) as [[o d'] t] eqn:H.
  unfold calls_of. cbn [snd].
  unfold run_nvue, check_pending, bind, ret in H. cbn [negb] in H.
  rewrite orb_false_r, !andb_true_r in H.
  repeat step H.
  all: injection H as <- <- <-.
  all: cbn [app].
  all: repeat match goal with
         | H : _ && _ = true |- _ => apply andb_prop in H; destruct H
         end.
  all: split;
    [ intros (c & Hin & Hs); in_trace Hin;
      try (simpl in Hs; congruence)
    | intros ((c & Hin & Hs & Hok & Htr) & Hdo); in_trace Hin;
      try (simpl in Hs; congruence);
      unfold succeeded, trimmed in *; cbn [call_rc call_stdout] in * ].
  all: try contradiction.
  all: try match goal with
         | H : _ && _ = false |- _ => rewrite Htr, Hdo in H; discriminate H
         end.
  all: try (found Apply; reflexivity).
  all: split; [|assumption]; found DiffAfter; repeat split; auto.
Qed.


(** C3. Outside check-mode a call is made from the apply step exactly when
    the diff call after the commands succeeded with a trimmed output that
    is not empty and the apply flag in force ([apply], or forced by
    [confirm] or [atomic]) is true.  When the session returns after such a
    call, [changed] is true whatever the two snapshots are, the after
    snapshot is not empty, and the trimmed output of the apply call sits
    in the output, after the outputs of the commands, only if it is not
    empty. *)
Theorem apply_runs_iff_pending_and_requested (p : params) (d : Dev) :
  ((exists c, In c (calls_of (run_nvue p false d)) /\ call_site c = Apply)
   <->
   (exists c, In c (calls_of (run_nvue p false d)) /\
              call_site c = DiffAfter /\ succeeded c /\
              truthy (trimmed c) = true) /\
   do_apply (resolve_flags p) = true) /\
  do_apply (resolve_flags p) = apply p || confirm p || atomic p /\
  (forall c,
      In c (calls_of (run_nvue p false d)) -> call_site c = Apply ->
      call_line c = "/usr/bin/nv config apply --assume-yes " ++
                    apply_options (resolve_flags p)) /\
  (forall res c,
      outcome_of (run_nvue p false d) = Returned res ->
      In c (calls_of (run_nvue p false d)) -> call_site c = Apply ->
      changed res = true /\
      truthy (after (res_diff res)) = true /\
      output res =
        (map trimmed (calls_at Config (calls_of (run_nvue p false d)))
         ++ (if truthy (trimmed c) then [trimmed c] else [])
         ++ flat_map kept (calls_at Save (calls_of (run_nvue p false d))))%list).
Proof.
  split; [apply apply_iff|]. split; [apply do_apply_eq|].
  split.
  { intros c Hin Hs.
    pose proof (proj1 (Forall_forall _ _) (lines_by_site p false d) c Hin)
      as Hline.
    cbv beta in Hline. rewrite Hs in Hline. exact Hline. }
  intros res c Hres Hin Hs.
  assert (Hpending :
            exists c', In c' (calls_of (run_nvue p false d)) /\
                       call_site c' = DiffAfter /\ succeeded c' /\
                       truthy (trimmed c') = true)
    by (apply apply_iff; eauto).
  destruct Hpending as (c' & Hin' & Hs' & _ & Htr).
  destruct (run_nvue p false d) as [[o d'] t] eqn:E.
  unfold outcome_of, calls_of in *. cbn [fst snd] in *. subst o.
  apply run_nvue_returned in E.
  destruct E as (cmds & tdet & cb & tcfg & ca & tapp & tsav & _ & -> &
                 Hdet & Hcb & Hcfg & _ & Hca & Happ & Hsav & Hdiff &
                 Hout & Hch).
  rewrite !(calls_at_session _ tdet cb tcfg ca tapp tsav) by assumption.
  pose proof (phase_sites _ _ Hdet) as Fdet.
  pose proof (phase_sites _ _ Happ) as Fapp.
  pose proof (phase_sites _ _ Hsav) as Fsav.
  rewrite Forall_forall in Fdet, Fapp, Fsav, Hcfg.
  assert (Hc' : c' = ca).
  { apply in_session in Hin'.
    destruct Hin' as [H|[H|[H|[H|[H|H]]]]]; auto;
      [apply Fdet in H | subst c' | apply Hcfg in H
       | apply Fapp in H | apply Fsav in H]; congruence. }
  assert (Htapp : tapp = [c]).
  { apply in_session in Hin.
    destruct Hin as [H|[H|[H|[H|[H|H]]]]];
      [apply Fdet in H | subst c | apply Hcfg in H | subst c
       | | apply Fsav in H]; try congruence.
    destruct Happ as [->|(c0 & -> & _)]; [destruct H|].
    destruct H as [->|[]]. reflexivity. }
  subst c' tapp. rewrite Hdiff, Hout, Hch. cbn [after app flat_map].
  rewrite app_nil_r. repeat split; auto.
Qed.


Lemma resolve_flags_spell_atomic (p : params) :
  atomic p = true -> resolve_flags (spell_atomic p) = resolve_flags p.
Proof.
  intros H. unfold resolve_flags. rewrite H. simpl.
  destruct (confirm p); reflexivity.
Qed.

(** C7, amended. A request with [atomic] true runs exactly as the same
    request with [atomic] false and [detach] and [apply] true, the save
    flag being the same on both sides: the same calls, the same outcome,
    the same device state. *)
Theorem atomic_is_detach_and_apply
    (p : params) (check_mode : bool) (d : Dev) :
  atomic p = true ->
  run_nvue p check_mode d = run_nvue (spell_atomic p) check_mode d.
Proof.
  intros H. unfold run_nvue.
  rewrite (resolve_flags_spell_atomic p H).
  reflexivity.
Qed.

Lemma rejected_pair (a : args) (t : string * string) :
  In t mutually_exclusive ->
  populated a (fst t) = true -> populated a (snd t) = true ->
  check_mutually_exclusive mutually_exclusive a <> [].
Proof.
  intros Hin H1 H2 E.
  assert (H : In t (check_mutually_exclusive mutually_exclusive a)).
  { apply filter_In. split; [exact Hin|]. now rewrite H1, H2. }
  rewrite E in H. destruct H.
Qed.

(** C8. A call of the module with both [commands] and [template]
    populated, or with two true options out of a pair among
    [apply]/[atomic], [detach]/[atomic], [confirm]/[atomic],
    [confirm_yes]/[atomic], [confirm_no]/[atomic], [confirm]/[confirm_yes],
    [confirm]/[confirm_no] and [confirm_yes]/[confirm_no], is rejected by
    the argument validation: [main] fails with the mutual-exclusion
    message, no call is made and the device is untouched. *)
Theorem exclusive_options_rejected
    (a : args) (check_mode : bool) (d : Dev) :
  (exists l t, arg_commands a = Some l /\ l <> [] /\
               arg_template a = Some t) \/
  (arg_apply a = Some true /\ arg_atomic a = Some true) \/
  (arg_detach a = Some true /\ arg_atomic a = Some true) \/
  (arg_confirm a = Some true /\ arg_atomic a = Some true) \/
  (arg_confirm_yes a = Some true /\ arg_atomic a = Some true) \/
  (arg_confirm_no a = Some true /\ arg_atomic a = Some true) \/
  (arg_confirm a = Some true /\ arg_confirm_yes a = Some true) \/
  (arg_confirm a = Some true /\ arg_confirm_no a = Some true) \/
  (arg_confirm_yes a = Some true /\ arg_confirm_no a = Some true) ->
  exists pairs,
    main a check_mode d =
      (Failed (ArgumentError
                 ("parameters are mutually exclusive: " ++ pairs)), d, []).
Proof.
  intros H.
  assert (Hbad : check_mutually_exclusive mutually_exclusive a <> []).
  { destruct H as [(l & t & H1 & _ & H2)|H];
      [apply (rejected_pair a ("commands", "template"));
       [simpl; auto | unfold populated; simpl; now rewrite H1
        | unfold populated; simpl; now rewrite H2]|].
    repeat (destruct H as [[H1 H2]|H] || destruct H as [H1 H2]).
    - apply (rejected_pair a ("apply", "atomic"));
        [simpl; auto 10 | unfold populated; simpl; now rewrite ?H1, ?H2 ..].
    - apply (rejected_pair a ("detach", "atomic"));
        [simpl; auto 10 | unfold populated; simpl; now rewrite ?H1, ?H2 ..].
    - apply (rejected_pair a ("confirm", "atomic"));
        [simpl; auto 10 | unfold populated; simpl; now rewrite ?H1, ?H2 ..].
    - apply (rejected_pair a ("confirm_yes", "atomic"));
        [simpl; auto 10 | unfold populated; simpl; now rewrite ?H1, ?H2 ..].
    - apply (rejected_pair a ("confirm_no", "atomic"));
        [simpl; auto 10 | unfold populated; simpl; now rewrite ?H1, ?H2 ..].
    - apply (rejected_pair a ("confirm", "confirm_yes"));
        [simpl; auto 10 | unfold populated; simpl; now rewrite ?H1, ?H2 ..].
    - apply (rejected_pair a ("confirm", "confirm_no"));
        [simpl; auto 10 | unfold populated; simpl; now rewrite ?H1, ?H2 ..].
    - apply (rejected_pair a ("confirm_no", "confirm_yes"));
        [simpl; auto 10 | unfold populated; simpl; now rewrite ?H1, ?H2 ..]. }
  unfold main.
  destruct (check_mutually_exclusive mutually_exclusive a) as [|t bad];
    [contradiction|].
  eexists. reflexivity.
Qed.

(** C9. A call of the module without [commands] and without [template]
    passes the argument validation, and the session then ends with an
    [AttributeError] raised while the command list is resolved: no call is
    made, the device is untouched, and the module does not leave through
    [fail_json]. *)
Theorem no_command_source_raises :
  exists a,
    arg_commands a = None /\ arg_template a = None /\
    check_mutually_exclusive mutually_exclusive a = [] /\
    forall check_mode d,
      main a check_mode d =
        (Raised (AttributeError
                   "'NoneType' object has no attribute 'splitlines'"),
         d, []).
Proof.
  exists Lab.no_args. repeat split.
Qed.


(** ** Further properties of the module *)

(** *** The monad *)

Lemma bind_ret_l {A B : Type} (a : A) (f : A -> M B) (d : Dev) :
  bind (ret a) f d = f a d.
Proof. unfold bind, ret. now destruct (f a d) as [[o d2] t2]. Qed.

Lemma bind_ret_r {A : Type} (m : M A) (d : Dev) : bind m ret d = m d.
Proof.
  unfold bind, ret. destruct (m d) as [[[a|e|e] d1] t1]; auto.
  now rewrite app_nil_r.
Qed.

Lemma bind_assoc {A B C : Type} (m : M A) (f : A -> M B) (g : B -> M C)
    (d : Dev) :
  bind (bind m f) g d = bind m (fun a => bind (f a) g) d.
Proof.
  unfold bind. destruct (m d) as [[[a|e|e] d1] t1]; auto.
  destruct (f a d1) as [[[b|e|e] d2] t2]; auto.
  destruct (g b d2) as [[o d3] t3]. now rewrite app_assoc.
Qed.

Lemma bind_ext {A B : Type} (m m' : M A) (f g : A -> M B) (d : Dev) :
  m d = m' d -> (forall a d1, f a d1 = g a d1) -> bind m f d = bind m' g d.
Proof.
  intros Hm Hf. unfold bind. rewrite <- Hm.
  destruct (m d) as [[[a|e|e] d1] t1]; auto. now rewrite Hf.
Qed.

(** *** What a session depends on *)

Lemma run_nvue_ext (p p' : params) (check_mode : bool) (d : Dev) :
  command_list p = command_list p' ->
  resolve_flags p = resolve_flags p' ->
  save p = save p' ->
  run_nvue p check_mode d = run_nvue p' check_mode d.
Proof.
  intros Hc Hf Hs. unfold run_nvue. rewrite Hf, Hs.
  apply bind_ext; [|reflexivity].
  now rewrite !resolve_commands_eq, Hc.
Qed.

(** X1. A session in check-mode is the session of the same commands outside
    check-mode with [detach] set and [apply], [atomic], [confirm] and [save]
    cleared: the same calls, the same outcome, the same device state. *)
Theorem check_mode_is_dry_run (p : params) (d : Dev) :
  run_nvue p true d = run_nvue (dry_run p) false d.
Proof.
  unfold run_nvue.
  change (do_apply (resolve_flags (dry_run p))) with false.
  change (do_detach (resolve_flags (dry_run p))) with true.
  change (save (dry_run p)) with false.
  cbn [negb orb andb].
  apply bind_ext; [reflexivity|]. intros cmds d1.
  apply bind_ext; [now rewrite orb_true_r|]. intros skip d2.
  apply bind_ext; [reflexivity|]. intros bef d3.
  apply bind_ext; [reflexivity|]. intros outs d4.
  apply bind_ext; [reflexivity|]. intros aft d5.
  apply bind_ext; [now rewrite !andb_false_r|]. intros [ch out] d6.
  apply bind_ext; [now rewrite andb_false_r|]. intros [ch' out'] d7.
  reflexivity.
Qed.

(** X2. A request whose [commands] is empty and whose [template] is given
    runs as the request whose [commands] are the lines of the template. *)
Theorem template_is_its_lines
    (p : params) (t : string) (check_mode : bool) (d : Dev) :
  commands p = [] -> template p = Some t ->
  run_nvue p check_mode d =
    run_nvue (with_commands (splitlines t) p) check_mode d.
Proof.
  intros Hc Ht. apply run_nvue_ext; try reflexivity.
  unfold command_list. cbn [commands template with_commands].
  rewrite Hc, Ht. cbn [option_map]. now destruct (splitlines t).
Qed.

(** X3. When [commands] is not empty the template is never looked at: any
    other template, or none, gives the same session. *)
Theorem commands_shadow_template
    (p : params) (o : option string) (check_mode : bool) (d : Dev) :
  commands p <> [] ->
  run_nvue (with_template o p) check_mode d = run_nvue p check_mode d.
Proof.
  intros Hc. apply run_nvue_ext; try reflexivity.
  unfold command_list. cbn [commands template with_template].
  destruct (commands p); [contradiction | reflexivity].
Qed.

(** *** Trimming *)

Lemma rstrip_idempotent (s : string) : rstrip (rstrip s) = rstrip s.
Proof.
  induction s as [|c s IH]; [reflexivity|].
  cbn [rstrip]. destruct (rstrip s) as [|c' r] eqn:E.
  - destruct (isspace c) eqn:Ec; [reflexivity|].
    cbn [rstrip]. now rewrite Ec.
  - cbn [rstrip]. cbn [rstrip] in IH. rewrite IH. reflexivity.
Qed.

Lemma lstrip_first (s : string) (c : ascii) :
  first_char (lstrip s) = Some c -> isspace c = false.
Proof.
  induction s as [|x s IH]; [discriminate|].
  cbn [lstrip]. destruct (isspace x) eqn:E; [exact IH|].
  cbn [first_char]. now intros [= <-].
Qed.

Lemma rstrip_first (s : string) (c : ascii) :
  first_char s = Some c -> isspace c = false ->
  first_char (rstrip s) = Some c.
Proof.
  destruct s as [|x s]; [discriminate|].
  cbn [first_char]. intros [= ->] Hc. cbn [rstrip].
  destruct (rstrip s); [now rewrite Hc | reflexivity].
Qed.

Lemma rstrip_first_inv (s : string) (c : ascii) :
  first_char (rstrip s) = Some c -> first_char s = Some c.
Proof.
  destruct s as [|x s]; [discriminate|].
  cbn [rstrip]. destruct (rstrip s).
  - destruct (isspace x); [discriminate | auto].
  - auto.
Qed.

Lemma rstrip_last (s : string) (c : ascii) :
  last_char (rstrip s) = Some c -> isspace c = false.
Proof.
  induction s as [|x s IH]; [discriminate|].
  cbn [rstrip]. destruct (rstrip s) as [|y r] eqn:E.
  - destruct (isspace x) eqn:Ex; [discriminate|].
    cbn [last_char]. now intros [= <-].
  - cbn [last_char]. exact IH.
Qed.

Lemma lstrip_tight (s : string) :
  (forall c, first_char s = Some c -> isspace c = false) -> lstrip s = s.
Proof.
  destruct s as [|x s]; [reflexivity|].
  intros H. cbn [lstrip]. now rewrite (H x eq_refl).
Qed.

Lemma strip_tight (s : string) : tight (strip s).
Proof.
  unfold tight, strip. split; intros c H.
  - apply rstrip_first_inv in H. now apply lstrip_first in H.
  - now apply rstrip_last in H.
Qed.

Lemma strip_idempotent (s : string) : strip (strip s) = strip s.
Proof.
  unfold strip at 1.
  rewrite lstrip_tight by apply strip_tight.
  unfold strip. apply rstrip_idempotent.
Qed.

(** *** The command list *)

Lemma commands_helper_normal (cmds : list string) (d : Dev) :
  commands_helper cmds d =
    commands_helper (map strip (filter nonblank cmds)) d.
Proof.
  revert d. induction cmds as [|line rest IH]; intros d; [reflexivity|].
  cbn [commands_helper filter]. unfold nonblank at 1.
  destruct (strip line =? "") eqn:E; cbn [negb]; [apply IH|].
  cbn [map commands_helper]. rewrite strip_idempotent, E.
  apply bind_ext; [reflexivity|]. intros out d1.
  apply bind_ext; [apply IH | reflexivity].
Qed.

(** X4. Blank lines and the white space around a command make no
    difference: the list runs as the list of its trimmed, non-blank
    lines. *)
Theorem commands_helper_trims (cmds : list string) (d : Dev) :
  commands_helper cmds d =
    commands_helper (map strip (filter nonblank cmds)) d.
Proof. apply commands_helper_normal. Qed.

(** X5. Running a list made of two parts is running the first part and,
    if it returns, the second part from where the first left the device;
    the outputs and the calls are those of the first followed by those of
    the second. *)
Theorem commands_helper_app (a b : list string) (d : Dev) :
  commands_helper (a ++ b) d =
    bind (commands_helper a)
      (fun oa => bind (commands_helper b) (fun ob => ret (oa ++ ob)%list)) d.
Proof.
  revert d. induction a as [|line rest IH]; intros d.
  - cbn [app commands_helper]. rewrite bind_ret_l.
    symmetry. apply bind_ret_r.
  - cbn [app commands_helper].
    destruct (strip line =? ""); [apply IH|].
    rewrite bind_assoc. apply bind_ext; [reflexivity|]. intros out d1.
    rewrite bind_assoc.
    rewrite (bind_ext _ _ _ _ d1 (IH d1) (fun a d2 => eq_refl)).
    rewrite bind_assoc. apply bind_ext; [reflexivity|]. intros oa d2.
    rewrite bind_ret_l, bind_assoc.
    apply bind_ext; [reflexivity|]. intros ob d3.
    now rewrite bind_ret_l.
Qed.

(** The commands sent are the first non-blank commands of the list, all of
    them when the list returns. *)
Lemma commands_helper_sent (cmds : list string) (d : Dev) :
  exists rest,
    map nv_line (filter nonblank cmds) =
      (map call_line (calls_of (commands_helper cmds d)) ++ rest)%list /\
    (forall outs, outcome_of (commands_helper cmds d) = Returned outs ->
                  rest = []).
Proof.
  revert d. induction cmds as [|line rest IH]; intros d.
  - exists []. split; reflexivity.
  - cbn [commands_helper filter]. unfold nonblank at 1 3.
    destruct (strip line =? "") eqn:E; cbn [negb]; [apply IH|].
    unfold bind.
    destruct (command_helper_cases Config (strip line) d)
      as (rc & out & err & d1 & _ & [[_ ->] | [_ ->]]).
    + destruct (IH d1) as (tl & Htl & Hret).
      unfold calls_of, outcome_of in *.
      destruct (commands_helper rest d1) as [[[outs|f|e] d2] t2];
        cbn [fst snd map app] in *; exists tl;
        (split; [unfold ret; cbn [map app]; rewrite ?app_nil_r;
                 now rewrite Htl |]); intros outs'; try discriminate.
      intros _. now apply (Hret outs).
    + exists (map nv_line (filter nonblank rest)).
      split; [reflexivity | discriminate].
Qed.

(** *** The order of the calls *)

(** One step of a run recorded in [H], keeping what is known of the
    commands' calls. *)
Ltac walk H :=
  match type of H with
  | context [resolve_commands ?p ?d] =>
      rewrite (resolve_commands_eq p d) in H;
      destruct (command_list p) eqn:?
  | context [command_helper ?s ?c ?d] =>
      let rc := fresh "rc" in
      let out := fresh "out" in
      let err := fresh "err" in
      let d1 := fresh "d" in
      let Hrc := fresh "Hrc" in
      let Hrun := fresh "Hrun" in
      destruct (command_helper_cases s c d)
        as (rc & out & err & d1 & _ & [[Hrc Hrun] | [Hrc Hrun]]);
      rewrite Hrun in H; clear Hrun
  | context [commands_helper ?l ?d] =>
      let outs := fresh "outs" in
      let d1 := fresh "d" in
      let tcfg := fresh "tcfg" in
      let Hcfg := fresh "Hcfg" in
      let Hsent := fresh "Hsent" in
      pose proof (always_commands_helper
                    (fun c => call_site c = Config) l
                    (fun _ _ _ _ _ _ => eq_refl) d) as Hcfg;
      pose proof (commands_helper_sent l d) as Hsent;
      unfold calls_of, outcome_of in Hcfg, Hsent;
      destruct (commands_helper l d) as [[[outs|?|?] d1] tcfg];
      cbn [fst snd] in Hcfg, Hsent
  | context [if ?b then _ else _] => destruct b eqn:?
  end;
  cbv beta iota zeta in H.

(** Works out [calls_at] on the trace of a leaf. *)
Ltac sort_calls :=
  unfold by_step, calls_at;
  repeat (rewrite filter_app || cbn [filter call_site site_eqb]);
  try match goal with
    | F : Forall (fun c => call_site c = Config) ?t |- _ =>
        let Hs := fresh in
        pose proof (calls_at_same _ _ F) as Hs;
        unfold calls_at in Hs; rewrite ?Hs; clear Hs;
        let H1 := fresh in
        pose proof (calls_at_other Detach _ _ F ltac:(discriminate)) as H1;
        unfold calls_at in H1; rewrite ?H1; clear H1;
        let H2 := fresh in
        pose proof (calls_at_other DiffBefore _ _ F ltac:(discriminate))
          as H2;
        unfold calls_at in H2; rewrite ?H2; clear H2;
        let H3 := fresh in
        pose proof (calls_at_other DiffAfter _ _ F ltac:(discriminate))
          as H3;
        unfold calls_at in H3; rewrite ?H3; clear H3;
        let H4 := fresh in
        pose proof (calls_at_other Apply _ _ F ltac:(discriminate)) as H4;
        unfold calls_at in H4; rewrite ?H4; clear H4;
        let H5 := fresh in
        pose proof (calls_at_other Save _ _ F ltac:(discriminate)) as H5;
        unfold calls_at in H5; rewrite ?H5; clear H5
    end;
  cbn [app length]; rewrite ?app_nil_r.

Lemma run_in_steps (p : params) (check_mode : bool) (d : Dev) :
  calls_of (run_nvue p check_mode d) =
    by_step (calls_of (run_nvue p check_mode d)) /\
  length (calls_at Detach (calls_of (run_nvue p check_mode d))) <= 1 /\
  length (calls_at DiffBefore (calls_of (run_nvue p check_mode d))) <= 1 /\
  length (calls_at DiffAfter (calls_of (run_nvue p check_mode d))) <= 1 /\
  length (calls_at Apply (calls_of (run_nvue p check_mode d))) <= 1 /\
  length (calls_at Save (calls_of (run_nvue p check_mode d))) <= 1.
Proof.
  destruct (run_nvue p check_mode d) as [[o d'] t] eqn:H.
  unfold calls_of. cbn [snd].
  unfold run_nvue, check_pending, bind, ret in H.
  repeat walk H.
  all: injection H as <- <- <-.
  all: cbn [app].
  all: repeat split; sort_calls; auto.
Qed.

(** X6. The calls of a session come in the order of its steps: detach,
    diff, the commands, diff, apply, save; every step but the commands
    makes at most one call. *)
Theorem calls_follow_the_steps (p : params) (check_mode : bool) (d : Dev) :
  calls_of (run_nvue p check_mode d) =
    by_step (calls_of (run_nvue p check_mode d)) /\
  (forall s, s <> Config ->
             length (calls_at s (calls_of (run_nvue p check_mode d))) <= 1).
Proof.
  destruct (run_in_steps p check_mode d) as (H & H1 & H2 & H3 & H4 & H5).
  split; [exact H|].
  intros [] Hs; auto. contradiction.
Qed.

Lemma config_calls_sent
    (p : params) (check_mode : bool) (d : Dev) (cmds : list string) :
  command_list p = Some cmds ->
  exists rest,
    map nv_line (filter nonblank cmds) =
      (map call_line (calls_at Config (calls_of (run_nvue p check_mode d)))
       ++ rest)%list /\
    (calls_at DiffAfter (calls_of (run_nvue p check_mode d)) <> [] ->
     rest = []).
Proof.
  destruct (run_nvue p check_mode d) as [[o d'] t] eqn:H.
  unfold calls_of. cbn [snd].
  unfold run_nvue, check_pending, bind, ret in H.
  repeat walk H.
  all: injection H as <- <- <-.
  all: intros [= <-].
  all: cbn [app].
  all: try (destruct Hsent as (rest & Hpre & Hall); exists rest).
  all: try (exists (map nv_line (filter nonblank l))).
  all: split; sort_calls; auto.
  all: try (intros; contradiction).
  all: intros _; apply (Hall _ eq_refl).
Qed.

(** X7. The commands sent to the device are the first non-blank lines of
    the command list, trimmed, in the order of the list and without a gap;
    once the second diff is taken all of them have been sent. *)
Theorem commands_sent_in_order
    (p : params) (check_mode : bool) (d : Dev) (cmds : list string) :
  command_list p = Some cmds ->
  exists rest,
    map nv_line (filter nonblank cmds) =
      (map call_line (calls_at Config (calls_of (run_nvue p check_mode d)))
       ++ rest)%list /\
    (calls_at DiffAfter (calls_of (run_nvue p check_mode d)) <> [] ->
     rest = []).
Proof. apply config_calls_sent. Qed.

(** X18. A session makes at most five calls besides the commands: with a
    command list of [n] non-blank lines it makes at most [n + 5] calls. *)
Theorem calls_are_bounded
    (p : params) (check_mode : bool) (d : Dev) (cmds : list string) :
  command_list p = Some cmds ->
  length (calls_of (run_nvue p check_mode d)) <=
    length (filter nonblank cmds) + 5.
Proof.
  intros Hlist.
  destruct (run_in_steps p check_mode d) as (H & H1 & H2 & H3 & H4 & H5).
  destruct (config_calls_sent p check_mode d cmds Hlist) as (rest & Hpre & _).
  apply (f_equal (@length _)) in H, Hpre.
  unfold by_step in H.
  rewrite !length_app in H. rewrite length_app, !length_map in Hpre.
  lia.
Qed.

(** *** Detach, save and the changed flag *)

(** X8. A call is made from the detach step exactly when the request has a
    command list and [detach], [atomic] or check-mode is on. *)
Theorem detach_runs_iff (p : params) (check_mode : bool) (d : Dev) :
  (exists c, In c (calls_of (run_nvue p check_mode d)) /\
             call_site c = Detach)
  <->
  command_list p <> None /\ detach p || atomic p || check_mode = true.
Proof.
  destruct (run_nvue p check_mode d) as [[o d'] t] eqn:H.
  unfold calls_of. cbn [snd].
  unfold run_nvue, check_pending, bind, ret in H.
  rewrite do_detach_eq in H.
  repeat walk H.
  all: injection H as <- <- <-.
  all: cbn [app].
  all: split;
    [ intros (c & Hin & Hs); in_trace Hin;
      try (simpl in Hs; congruence)
    | intros [Hlist Hflag] ].
  all: try (split; [discriminate | reflexivity]).
  all: try congruence.
  all: found Detach; reflexivity.
Qed.

(** X9. The [changed] flag a session returns is true exactly when the two
    diff snapshots differ, or the apply step ran (something was pending, the
    apply flag in force was set, no check-mode), or the save step ran
    ([save] set, no check-mode). *)
Theorem changed_in_full
    (p : params) (check_mode : bool) (d : Dev) (res : result) :
  outcome_of (run_nvue p check_mode d) = Returned res ->
  changed res =
    negb (before (res_diff res) =? after (res_diff res))
    || truthy (after (res_diff res))
       && (apply p || confirm p || atomic p) && negb check_mode
    || save p && negb check_mode.
Proof.
  destruct (run_nvue p check_mode d) as [[o d'] t] eqn:H.
  unfold outcome_of. cbn [fst]. intros ->.
  unfold run_nvue, check_pending, bind, ret in H.
  rewrite do_apply_eq in H.
  repeat walk H; try discriminate H.
  all: injection H as <- _ _.
  all: cbn [changed res_diff before after].
  all: repeat match goal with
         | E : ?x = true |- context [?x] => rewrite E
         | E : ?x = false |- context [?x] => rewrite E
         end.
  all: rewrite ?orb_true_r, ?orb_false_r; reflexivity.
Qed.

(** X10. When a session returns, a call was made from the save step exactly
    when [save] is set and check-mode is off. *)
Theorem save_runs_iff
    (p : params) (check_mode : bool) (d : Dev) (res : result) :
  outcome_of (run_nvue p check_mode d) = Returned res ->
  ((exists c, In c (calls_of (run_nvue p check_mode d)) /\
              call_site c = Save)
   <-> save p && negb check_mode = true).
Proof.
  destruct (run_nvue p check_mode d) as [[o d'] t] eqn:H.
  unfold outcome_of, calls_of. cbn [fst snd]. intros ->.
  unfold run_nvue, check_pending, bind, ret in H.
  repeat walk H; try discriminate H.
  all: injection H as _ _ <-.
  all: cbn [app].
  all: split;
    [ intros (c & Hin & Hs); in_trace Hin;
      try (simpl in Hs; congruence)
    | intros Hflag ].
  all: try reflexivity.
  all: try congruence.
  all: found Save; reflexivity.
Qed.

(** *** Exceptions, progress and the record of calls *)






Section Sound_device.

(** A device on which no command fails. *)
Hypothesis sound : forall line d, fst (fst (fst (run_command line d))) = 0%Z.




End Sound_device.








(** *** The command lines *)

(** X14. The command line of the apply step is [config apply --assume-yes]
    followed by a space and then, in this order and each only if its flag is
    set, [--confirm] with the timeout, [--confirm-yes] and [--confirm-no],
    each with a space before it. *)
Theorem apply_command_line
    (p : params) (check_mode : bool) (d : Dev) (c : call) :
  In c (calls_of (run_nvue p check_mode d)) -> call_site c = Apply ->
  call_line c =
    "/usr/bin/nv config apply --assume-yes " ++
    (if confirm p then " --confirm " ++ confirm_timeout p else "") ++
    (if confirm_yes p then " --confirm-yes" else "") ++
    (if confirm_no p then " --confirm-no" else "").
Proof.
  intros Hin Hs.
  pose proof (proj1 (Forall_forall _ _) (lines_by_site p check_mode d) c Hin)
    as Hline.
  cbv beta in Hline. rewrite Hs in Hline. cbn [line_at] in Hline.
  now rewrite apply_options_eq in Hline.
Qed.

(** X15. Every configuration command sent to the device is [/usr/bin/nv]
    followed by a line of the command list that is not empty and neither
    starts nor ends with white space. *)
Theorem commands_sent_are_trimmed
    (p : params) (check_mode : bool) (d : Dev) (c : call) :
  In c (calls_of (run_nvue p check_mode d)) -> call_site c = Config ->
  exists cmd,
    call_line c = "/usr/bin/nv " ++ cmd /\ cmd <> "" /\ tight cmd /\
    exists line, In line (default [] (command_list p)) /\ cmd = strip line.
Proof.
  intros Hin Hs.
  pose proof (proj1 (Forall_forall _ _) (lines_by_site p check_mode d) c Hin)
    as Hline.
  cbv beta in Hline. rewrite Hs in Hline. cbn [line_at] in Hline.
  destruct Hline as (l & Hl & Hnb & Hline).
  exists (strip l). repeat split; try apply strip_tight; auto.
  - unfold nonblank in Hnb. intros E. rewrite E in Hnb. discriminate.
  - exists l. auto.
Qed.

(** X16. Whatever a session returns is trimmed: neither a snapshot of the
    diff nor an entry of the output starts or ends with white space. *)
Theorem result_is_trimmed
    (p : params) (check_mode : bool) (d : Dev) (res : result) :
  outcome_of (run_nvue p check_mode d) = Returned res ->
  tight (before (res_diff res)) /\ tight (after (res_diff res)) /\
  (forall o, In o (output res) -> tight o).
Proof.
  destruct (run_nvue p check_mode d) as [[o d'] t] eqn:E.
  unfold outcome_of. cbn [fst]. intros ->.
  apply run_nvue_returned in E.
  destruct E as (cmds & tdet & cb & tcfg & ca & tapp & tsav & _ & _ &
                 _ & _ & _ & _ & _ & _ & _ & Hdiff & Hout & _).
  rewrite Hdiff, Hout. cbn [before after].
  repeat split; try apply strip_tight.
  - apply in_app_or in H. destruct H as [H|H].
    + apply in_map_iff in H. destruct H as (c & <- & _).
      now apply strip_tight.
    + rewrite <- flat_map_app in H. apply in_flat_map in H.
      destruct H as (c & _ & H). unfold kept in H.
      destruct (truthy (trimmed c)); [|destruct H].
      destruct H as [<-|[]]. now apply strip_tight.
  - apply in_app_or in H. destruct H as [H|H].
    + apply in_map_iff in H. destruct H as (c & <- & _).
      now apply strip_tight.
    + rewrite <- flat_map_app in H. apply in_flat_map in H.
      destruct H as (c & _ & H). unfold kept in H.
      destruct (truthy (trimmed c)); [|destruct H].
      destruct H as [<-|[]]. now apply strip_tight.
Qed.

(** *** Lines of a template *)

Lemma one_line_lstrip (s : string) :
  one_line s = true -> one_line (lstrip s) = true.
Proof.
  induction s as [|c s IH]; [reflexivity|].
  cbn [lstrip]. destruct (isspace c); [|auto].
  cbn [one_line]. intros H. apply andb_prop in H. now apply IH.
Qed.

Lemma one_line_rstrip (s : string) :
  one_line s = true -> one_line (rstrip s) = true.
Proof.
  induction s as [|c s IH]; [reflexivity|].
  cbn [one_line]. intros H. apply andb_prop in H. destruct H as [Hc Hs].
  cbn [rstrip]. specialize (IH Hs).
  destruct (rstrip s).
  - destruct (isspace c); [reflexivity|]. cbn [one_line]. now rewrite Hc.
  - cbn [one_line] in *. now rewrite Hc, IH.
Qed.

Lemma one_line_strip (s : string) :
  one_line s = true -> one_line (strip s) = true.
Proof. intros H. now apply one_line_rstrip, one_line_lstrip. Qed.

Lemma one_line_of_list (l : list ascii) :
  one_line (string_of_list_ascii l) =
    forallb (fun c => negb (islinebreak c)) l.
Proof.
  induction l as [|c l IH]; [reflexivity|].
  cbn [string_of_list_ascii one_line forallb]. now rewrite IH.
Qed.

Lemma one_line_rev (cur : list ascii) :
  forallb (fun c => negb (islinebreak c)) cur = true ->
  one_line (string_of_list_ascii (rev cur)) = true.
Proof.
  intros H. rewrite one_line_of_list.
  apply forallb_forall. intros c Hc. apply in_rev in Hc.
  now apply (proj1 (forallb_forall _ _) H).
Qed.

Lemma splitlines_from_one_line (s : string) :
  (forall cur,
      forallb (fun c => negb (islinebreak c)) cur = true ->
      Forall (fun l => one_line l = true) (splitlines_from cur s)) /\
  (forall cur,
      forallb (fun c => negb (islinebreak c)) cur = true ->
      Forall (fun l => one_line l = true)
        (splitlines_from cur
           (match s with String _ s' => s' | EmptyString => EmptyString end))).
Proof.
  assert (Hnil : forall cur,
             forallb (fun c => negb (islinebreak c)) cur = true ->
             Forall (fun l => one_line l = true)
               (splitlines_from cur EmptyString)).
  { intros cur Hcur. cbn [splitlines_from].
    destruct cur; [constructor|].
    constructor; [now apply one_line_rev | constructor]. }
  induction s as [|c s [IHs IHt]]; [split; exact Hnil|].
  split; [|exact IHs].
  intros cur Hcur. cbn [splitlines_from].
  destruct (islinebreak c) eqn:Ec.
  - constructor; [now apply one_line_rev|].
    destruct s as [|c' s'']; [now apply Hnil|].
    destruct (Ascii.eqb c CR && Ascii.eqb c' LF); [apply IHt | apply IHs];
      reflexivity.
  - apply IHs. cbn [forallb]. now rewrite Ec, Hcur.
Qed.

Lemma splitlines_one_line (t : string) :
  Forall (fun l => one_line l = true) (splitlines t).
Proof. now apply (proj1 (splitlines_from_one_line t)). Qed.

(** X17. When the commands come from a template, no command sent to the
    device holds a line boundary: each is one line of the template,
    trimmed. *)
Theorem template_commands_are_single_lines
    (p : params) (t : string) (check_mode : bool) (d : Dev) (c : call) :
  commands p = [] -> template p = Some t ->
  In c (calls_of (run_nvue p check_mode d)) -> call_site c = Config ->
  exists line,
    In line (splitlines t) /\ one_line (strip line) = true /\
    call_line c = "/usr/bin/nv " ++ strip line.
Proof.
  intros Hc Ht Hin Hs.
  pose proof (proj1 (Forall_forall _ _) (lines_by_site p check_mode d) c Hin)
    as Hline.
  cbv beta in Hline. rewrite Hs in Hline. cbn [line_at] in Hline.
  destruct Hline as (l & Hl & _ & Hline).
  unfold command_list in Hl. rewrite Hc, Ht in Hl. cbn [option_map default] in Hl.
  exists l. repeat split; auto.
  apply one_line_strip.
  now apply (proj1 (Forall_forall _ _) (splitlines_one_line t)).
Qed.

(** *** Sessions with the same commands *)

Lemma bind_both {A B : Type} (m m' : M A) (f g : A -> M B)
    (d d1 : Dev) (a a' : A) (t1 : list call) :
  m d = (Returned a, d1, t1) -> m' d = (Returned a', d1, t1) ->
  f a d1 = g a' d1 -> bind m f d = bind m' g d.
Proof. intros Hm Hm' Hf. unfold bind. now rewrite Hm, Hm', Hf. Qed.

(** X20. Two requests with the same flags in force and the same [save],
    whose command lists have the same trimmed non-blank lines, run the same
    session: blank lines and white space around the commands change neither
    the calls nor the result. *)
Theorem same_trimmed_commands_same_session
    (p p' : params) (l l' : list string) (check_mode : bool) (d : Dev) :
  command_list p = Some l -> command_list p' = Some l' ->
  map strip (filter nonblank l) = map strip (filter nonblank l') ->
  resolve_flags p = resolve_flags p' -> save p = save p' ->
  run_nvue p check_mode d = run_nvue p' check_mode d.
Proof.
  intros Hl Hl' Hsame Hf Hs. unfold run_nvue. rewrite Hf, Hs.
  apply (bind_both _ _ _ _ d d l l' []);
    [now rewrite resolve_commands_eq, Hl
    | now rewrite resolve_commands_eq, Hl' |].
  apply bind_ext; [reflexivity|]. intros skip d1.
  apply bind_ext; [reflexivity|]. intros bef d2.
  apply bind_ext; [|reflexivity].
  now rewrite (commands_helper_normal l), (commands_helper_normal l'), Hsame.
Qed.

(** *** Defaults *)

(** X19. Arguments that set none of [apply], [atomic], [confirm], [detach]
    and [save] give, outside check-mode, a session that only takes the two
    diffs and sends the commands: nothing is detached, applied or saved. *)
Theorem unflagged_session_only_stages (a : args) (d : Dev) (c : call) :
  arg_apply a <> Some true -> arg_atomic a <> Some true ->
  arg_confirm a <> Some true -> arg_detach a <> Some true ->
  arg_save a <> Some true ->
  In c (calls_of (run_nvue (argument_spec a) false d)) ->
  call_site c = DiffBefore \/ call_site c = Config \/ call_site c = DiffAfter.
Proof.
  intros Hap Hat Hco Hde Hsa.
  assert (Eap : apply (argument_spec a) = false)
    by (cbn [apply argument_spec]; destruct (arg_apply a) as [[]|];
        auto; contradiction).
  assert (Eat : atomic (argument_spec a) = false)
    by (cbn [atomic argument_spec]; destruct (arg_atomic a) as [[]|];
        auto; contradiction).
  assert (Eco : confirm (argument_spec a) = false)
    by (cbn [confirm argument_spec]; destruct (arg_confirm a) as [[]|];
        auto; contradiction).
  assert (Ede : detach (argument_spec a) = false)
    by (cbn [detach argument_spec]; destruct (arg_detach a) as [[]|];
        auto; contradiction).
  assert (Esa : save (argument_spec a) = false)
    by (cbn [save argument_spec]; destruct (arg_save a) as [[]|];
        auto; contradiction).
  revert c. apply Forall_forall. revert d.
  change (always
            (fun c => call_site c = DiffBefore \/ call_site c = Config \/
                      call_site c = DiffAfter)
            (run_nvue (argument_spec a) false)).
  unfold run_nvue, check_pending.
  rewrite do_detach_eq, do_apply_eq, Eap, Eat, Eco, Ede, Esa.
  cbn [orb andb negb].
  all_calls; simpl; auto.
Qed.

End Session.

Arguments calls_of {Dev A} r.
Arguments outcome_of {Dev A} r.

(** ** Runs on the lab devices *)

Example strip_both_ends :
  strip ("  set interface swp1 " ++ Lab.nl) = "set interface swp1".
Proof. reflexivity. Qed.

Example splitlines_template :
  splitlines ("set a" ++ Lab.nl ++ Lab.nl ++ "set b" ++
              String CR Lab.nl ++ "set c" ++ Lab.nl)
  = ["set a"; ""; "set b"; "set c"].
Proof. reflexivity. Qed.

(** One command and no flag: no detach, the two diffs around the command,
    no apply, no save. *)
Example run_plain :
  run_nvue nat Lab.switch
    (Lab.request false false false false false false ["set interface swp1"])
    false 0
  = (Returned (Result true (Diff "" "+ pending") [""]), 1,
     [ Call DiffBefore "/usr/bin/nv config diff" 0 "" "";
       Call Config "/usr/bin/nv set interface swp1" 0 "" "";
       Call DiffAfter "/usr/bin/nv config diff" 0 ("+ pending" ++ Lab.nl) "" ]).
Proof. reflexivity. Qed.

(** Check-mode with [apply] and [save]: detach first, nothing applied or
    saved. *)
Example run_check_mode :
  run_nvue nat Lab.switch
    (Lab.request true false false false false true ["set interface swp1"])
    true 3
  = (Returned (Result true (Diff "" "+ pending") [""]), 1,
     [ Call Detach "/usr/bin/nv config detach" 0 "" "";
       Call DiffBefore "/usr/bin/nv config diff" 0 "" "";
       Call Config "/usr/bin/nv set interface swp1" 0 "" "";
       Call DiffAfter "/usr/bin/nv config diff" 0 ("+ pending" ++ Lab.nl) "" ]).
Proof. reflexivity. Qed.

(** A template whose second line fails: the third line is never sent. *)
Example run_failure :
  main nat Lab.switch
    (Args None None None None None None None None None
       (Some ("set a" ++ Lab.nl ++ "show b" ++ Lab.nl ++ "set c")))
    false 0
  = (Failed (ExecutionFailure "Failed on line 'show b'" 1 ""
               ("Error: invalid command" ++ Lab.nl)), 1,
     [ Call DiffBefore "/usr/bin/nv config diff" 0 "" "";
       Call Config "/usr/bin/nv set a" 0 "" "";
       Call Config "/usr/bin/nv show b" 1 ""
         ("Error: invalid command" ++ Lab.nl) ]).
Proof. reflexivity. Qed.

(** [confirm] with a timeout of thirty seconds. *)
Example run_confirm :
  calls_at Apply
    (calls_of
       (main nat Lab.switch
          (Args None None (Some ["set interface swp1"]) (Some true) None
             (Some "30s") None None None None)
          false 0))
  = [ Call Apply "/usr/bin/nv config apply --assume-yes  --confirm 30s" 0
        ("applied" ++ Lab.nl) "" ].
Proof. reflexivity. Qed.

(** ** The properties on the lab devices *)

(** C7 as stated fails: with [atomic] and [save] both true the session
    saves, which the request with [detach] and [apply] and no save does
    not; on the quiet device the calls and [changed] both differ. *)
Lemma atomic_with_save_differs :
  atomic (Lab.request false true false false false true
            ["set interface swp1"]) = true /\
  run_nvue unit Lab.quiet
    (Lab.request false true false false false true ["set interface swp1"])
    false tt
  <>
  run_nvue unit Lab.quiet
    (no_save (spell_atomic
       (Lab.request false true false false false true
          ["set interface swp1"])))
    false tt.
Proof. split; [reflexivity | vm_compute; discriminate]. Qed.

Lemma check_mode_witness :
  exists rc out err rest,
    fst (Lab.switch "/usr/bin/nv config detach" 3) = (rc, out, err) /\
    calls_of (run_nvue nat Lab.switch
                (Lab.request true false false false false true
                   ["set interface swp1"]) true 3) =
      Call Detach "/usr/bin/nv config detach" rc out err :: rest.
Proof.
  apply (proj2 (check_mode_detaches_never_applies_nor_saves nat Lab.switch
                  (Lab.request true false false false false true
                     ["set interface swp1"]) 3)).
  left. simpl. discriminate.
Defined.

Lemma failing_call_witness :
  outcome_of (run_nvue nat Lab.switch
                (Lab.request true false false false false false
                   ["set interface swp1"; "show interface"; "set b"])
                false 0) =
    Failed (ExecutionFailure "Failed on line 'show interface'" 1 ""
              ("Error: invalid command" ++ Lab.nl)).
Proof.
  destruct (failing_call_aborts_session nat Lab.switch
              (Lab.request true false false false false false
                 ["set interface swp1"; "show interface"; "set b"])
              false 0
              (Call Config "/usr/bin/nv show interface" 1 ""
                 ("Error: invalid command" ++ Lab.nl)))
    as [(line & Hline & Hout) _].
  - vm_compute. auto.
  - simpl. discriminate.
  - simpl in Hline. injection Hline as <-. exact Hout.
Defined.

Lemma apply_witness :
  changed (Result true (Diff "" "+ pending") [""; "applied"]) = true /\
  truthy (after (res_diff (Result true (Diff "" "+ pending")
                             [""; "applied"]))) = true /\
  output (Result true (Diff "" "+ pending") [""; "applied"]) =
    (map trimmed
       (calls_at Config
          (calls_of (run_nvue nat Lab.switch
                       (Lab.request true false false false false false
                          ["set interface swp1"]) false 0)))
     ++ (if truthy (trimmed (Call Apply
                               "/usr/bin/nv config apply --assume-yes " 0
                               ("applied" ++ Lab.nl) ""))
         then [trimmed (Call Apply "/usr/bin/nv config apply --assume-yes " 0
                          ("applied" ++ Lab.nl) "")]
         else [])
     ++ flat_map kept
          (calls_at Save
             (calls_of (run_nvue nat Lab.switch
                          (Lab.request true false false false false false
                             ["set interface swp1"]) false 0))))%list.
Proof.
  apply (proj2 (proj2 (proj2
           (apply_runs_iff_pending_and_requested nat Lab.switch
              (Lab.request true false false false false false
                 ["set interface swp1"]) 0)))).
  - reflexivity.
  - vm_compute. auto 10.
  - reflexivity.
Defined.

Lemma changed_witness :
  changed (Result true (Diff "" "+ pending") [""]) =
    negb ("" =? "+ pending").
Proof.
  apply (changed_is_diff_inequality nat Lab.switch
           (Lab.request false false false false false false
              ["set interface swp1"]) false 0
           (Result true (Diff "" "+ pending") [""])).
  - reflexivity.
  - vm_compute. intros c [<-|[<-|[<-|[]]]]; split; discriminate.
Defined.

Lemma output_witness :
  exists cmds,
    command_list (Lab.request true false false false false true
                    ["set interface swp1"; "   "; "set interface swp2"]) =
      Some cmds /\
    length [""; ""; "applied"] =
      length (filter nonblank cmds)
      + extra Apply
          (calls_of (run_nvue nat Lab.switch
                       (Lab.request true false false false false true
                          ["set interface swp1"; "   "; "set interface swp2"])
                       false 0))
      + extra Save
          (calls_of (run_nvue nat Lab.switch
                       (Lab.request true false false false false true
                          ["set interface swp1"; "   "; "set interface swp2"])
                       false 0)).
Proof.
  destruct (output_length_and_order nat Lab.switch
              (Lab.request true false false false false true
                 ["set interface swp1"; "   "; "set interface swp2"])
              false 0
              (Result true (Diff "" "+ pending") [""; ""; "applied"]))
    as (cmds & Hc & Hlen & _).
  - reflexivity.
  - exists cmds. split; [exact Hc | exact Hlen].
Defined.

Lemma confirm_witness :
  do_apply (resolve_flags
              (Lab.request false false true false false false
                 ["set interface swp1"])) = true /\
  substring_of ("--confirm " ++ "10m")
    "/usr/bin/nv config apply --assume-yes  --confirm 10m" /\
  substring_of "--assume-yes"
    "/usr/bin/nv config apply --assume-yes  --confirm 10m".
Proof.
  destruct (confirm_forces_apply_and_passes_timeout nat Lab.switch
              (Lab.request false false true false false false
                 ["set interface swp1"]) false 0 eq_refl)
    as [Hflag Hcalls].
  split; [exact Hflag|].
  apply (Hcalls (Call Apply
                   "/usr/bin/nv config apply --assume-yes  --confirm 10m"
                   0 ("applied" ++ Lab.nl) "")).
  - vm_compute. auto 10.
  - reflexivity.
Defined.

Lemma atomic_witness :
  run_nvue nat Lab.switch
    (Lab.request false true false false false true ["set interface swp1"])
    false 2
  =
  run_nvue nat Lab.switch
    (spell_atomic
       (Lab.request false true false false false true
          ["set interface swp1"]))
    false 2.
Proof.
  apply (atomic_is_detach_and_apply nat Lab.switch
           (Lab.request false true false false false true
              ["set interface swp1"]) false 2).
  reflexivity.
Defined.

Lemma exclusive_witness :
  exists pairs,
    main nat Lab.switch
      (Args (Some true) (Some true) (Some ["set interface swp1"]) None None
         None None None None None) false 0 =
      (Failed (ArgumentError
                 ("parameters are mutually exclusive: " ++ pairs)), 0, []).
Proof.
  apply (exclusive_options_rejected nat Lab.switch
           (Args (Some true) (Some true) (Some ["set interface swp1"]) None
              None None None None None None) false 0).
  right. left. split; reflexivity.
Defined.

Lemma confirm_yes_witness :
  do_apply (resolve_flags
              (Lab.request false false false true false false
                 ["set interface swp1"])) = false.
Proof.
  apply (confirm_yes_no_alone_never_apply nat Lab.switch
           (Lab.request false false false true false false
              ["set interface swp1"]) false 0);
    [left|..]; reflexivity.
Defined.

(** ** The further properties on the lab devices *)

Lemma template_witness :
  run_nvue nat Lab.switch
    (Lab.templated ("set a" ++ Lab.nl ++ Lab.nl ++ " set b")) false 0
  =
  run_nvue nat Lab.switch
    (with_commands (splitlines ("set a" ++ Lab.nl ++ Lab.nl ++ " set b"))
       (Lab.templated ("set a" ++ Lab.nl ++ Lab.nl ++ " set b")))
    false 0.
Proof.
  apply (template_is_its_lines nat Lab.switch
           (Lab.templated ("set a" ++ Lab.nl ++ Lab.nl ++ " set b"))
           ("set a" ++ Lab.nl ++ Lab.nl ++ " set b") false 0);
    reflexivity.
Defined.

Lemma shadow_witness :
  run_nvue nat Lab.switch
    (with_template (Some "show b")
       (Lab.request false false false false false false ["set a"]))
    false 0
  =
  run_nvue nat Lab.switch
    (Lab.request false false false false false false ["set a"]) false 0.
Proof.
  apply (commands_shadow_template nat Lab.switch
           (Lab.request false false false false false false ["set a"])
           (Some "show b") false 0).
  simpl. discriminate.
Defined.

Lemma steps_witness :
  length (calls_at Apply
            (calls_of (run_nvue nat Lab.switch
                         (Lab.request true false false false true true
                            ["set a"; "set b"]) false 0))) <= 1.
Proof.
  apply (proj2 (calls_follow_the_steps nat Lab.switch
                  (Lab.request true false false false true true
                     ["set a"; "set b"]) false 0) Apply).
  discriminate.
Defined.

Lemma sent_witness :
  exists rest,
    map nv_line (filter nonblank ["set a"; " "; "show b"; "set c"]) =
      (map call_line
         (calls_at Config
            (calls_of (run_nvue nat Lab.switch
                         (Lab.request false false false false false false
                            ["set a"; " "; "show b"; "set c"]) false 0)))
       ++ rest)%list /\
    (calls_at DiffAfter
       (calls_of (run_nvue nat Lab.switch
                    (Lab.request false false false false false false
                       ["set a"; " "; "show b"; "set c"]) false 0)) <> [] ->
     rest = []).
Proof.
  apply (commands_sent_in_order nat Lab.switch
           (Lab.request false false false false false false
              ["set a"; " "; "show b"; "set c"]) false 0
           ["set a"; " "; "show b"; "set c"]).
  reflexivity.
Defined.

Lemma bound_witness :
  length (calls_of (run_nvue nat Lab.switch
                      (Lab.request true false false false true true
                         ["set a"; " "; "set b"]) false 0))
  <= length (filter nonblank ["set a"; " "; "set b"]) + 5.
Proof.
  apply (calls_are_bounded nat Lab.switch
           (Lab.request true false false false true true
              ["set a"; " "; "set b"]) false 0 ["set a"; " "; "set b"]).
  reflexivity.
Defined.

Lemma detach_witness :
  exists c,
    In c (calls_of (run_nvue nat Lab.switch
                      (Lab.request false true false false false false
                         ["set a"]) false 4)) /\
    call_site c = Detach.
Proof.
  apply (proj2 (detach_runs_iff nat Lab.switch
                  (Lab.request false true false false false false ["set a"])
                  false 4)).
  split; [simpl; discriminate | reflexivity].
Defined.

Lemma changed_full_witness :
  changed (Result true (Diff "+ pending" "+ pending") [""]) =
    negb ("+ pending" =? "+ pending")
    || truthy "+ pending" && (false || false || false) && negb false
    || true && negb false.
Proof.
  apply (changed_in_full nat Lab.switch
           (Lab.request false false false false false true ["set a"])
           false 2 (Result true (Diff "+ pending" "+ pending") [""])).
  reflexivity.
Defined.

Lemma save_witness :
  (exists c,
      In c (calls_of (run_nvue nat Lab.switch
                        (Lab.request false false false false false true
                           ["set a"]) false 2)) /\
      call_site c = Save)
  <-> true && negb false = true.
Proof.
  apply (save_runs_iff nat Lab.switch
           (Lab.request false false false false false true ["set a"])
           false 2 (Result true (Diff "+ pending" "+ pending") [""])).
  reflexivity.
Defined.



Lemma apply_line_witness :
  "/usr/bin/nv config apply --assume-yes  --confirm-yes" =
    "/usr/bin/nv config apply --assume-yes " ++
    (if false then " --confirm " ++ "10m" else "") ++
    (if true then " --confirm-yes" else "") ++
    (if false then " --confirm-no" else "").
Proof.
  apply (apply_command_line nat Lab.switch
           (Lab.request true false false true false false ["set a"])
           false 0
           (Call Apply "/usr/bin/nv config apply --assume-yes  --confirm-yes"
              0 ("applied" ++ Lab.nl) "")).
  - vm_compute. auto 10.
  - reflexivity.
Defined.

Lemma trimmed_command_witness :
  exists cmd,
    "/usr/bin/nv set interface swp1" = "/usr/bin/nv " ++ cmd /\
    cmd <> "" /\ tight cmd /\
    exists line,
      In line (default []
                 (command_list
                    (Lab.request false false false false false false
                       ["  set interface swp1 "; "   "]))) /\
      cmd = strip line.
Proof.
  apply (commands_sent_are_trimmed nat Lab.switch
           (Lab.request false false false false false false
              ["  set interface swp1 "; "   "]) false 0
           (Call Config "/usr/bin/nv set interface swp1" 0 "" "")).
  - vm_compute. auto 10.
  - reflexivity.
Defined.

Lemma trimmed_result_witness :
  tight "" /\ tight "+ pending" /\
  (forall o, In o [""; "applied"] -> tight o).
Proof.
  apply (result_is_trimmed nat Lab.switch
           (Lab.request true false false false false false ["set a"])
           false 0 (Result true (Diff "" "+ pending") [""; "applied"])).
  reflexivity.
Defined.

Lemma single_line_witness :
  exists line,
    In line (splitlines ("set a" ++ Lab.nl ++ " set b" ++ Lab.nl)) /\
    one_line (strip line) = true /\
    "/usr/bin/nv set b" = "/usr/bin/nv " ++ strip line.
Proof.
  apply (template_commands_are_single_lines nat Lab.switch
           (Lab.templated ("set a" ++ Lab.nl ++ " set b" ++ Lab.nl))
           ("set a" ++ Lab.nl ++ " set b" ++ Lab.nl) false 0
           (Call Config "/usr/bin/nv set b" 0 "" "")).
  - reflexivity.
  - reflexivity.
  - vm_compute. auto 10.
  - reflexivity.
Defined.

Lemma unflagged_witness :
  call_site (Call Config "/usr/bin/nv set a" 0 "" "") = DiffBefore \/
  call_site (Call Config "/usr/bin/nv set a" 0 "" "") = Config \/
  call_site (Call Config "/usr/bin/nv set a" 0 "" "") = DiffAfter.
Proof.
  apply (unflagged_session_only_stages nat Lab.switch
           (Lab.only_commands ["set a"]) 5
           (Call Config "/usr/bin/nv set a" 0 "" ""));
    try discriminate.
  vm_compute. auto 10.
Defined.

Lemma same_session_witness :
  run_nvue nat Lab.switch
    (Lab.request true false false false false false
       [" set a"; "  "; "set b "]) false 0
  =
  run_nvue nat Lab.switch
    (Lab.request true false false false false false ["set a"; "set b"])
    false 0.
Proof.
  apply (same_trimmed_commands_same_session nat Lab.switch
           (Lab.request true false false false false false
              [" set a"; "  "; "set b "])
           (Lab.request true false false false false false ["set a"; "set b"])
           [" set a"; "  "; "set b "] ["set a"; "set b"] false 0);
    reflexivity.
Defined.
